(** * ClimaWell backend: the heatwave-risk inference service

    A shallow embedding of [backend/app.py] (a Flask application) and the
    properties of its request handlers: the sensor ingest and read handlers
    over the process-wide reading [latest_sensor_data], the two prediction
    handlers [predict] and [predict_with_sensor], and the recommendation
    table [get_recommendations].

    Conventions of the embedding.
    - A parsed JSON body is a [pyval], the Python object [request.get_json()]
      returns.  Python floats are IEEE binary64 numbers, here the primitive
      [float]s.
    - A raised exception is a value [exn] carrying its class and [str(e)]
      (the built-in messages are those of CPython 3.12); the handlers'
      [try ... except Exception as e] turns it into the response
      [jsonify({'error': str(e)}), 500].
    - The handlers run in a small state-and-error monad over a [world]: the
      dictionary [latest_sensor_data] and the log of the calls made to the
      outside (the forecast provider, the classifier).
    - [datetime.now()] is an argument of the handlers that read the clock, in
      microseconds (a [datetime] has microsecond resolution, and
      [fromisoformat (isoformat d) = d]).
    - [print] is not modelled. *)

From Stdlib Require Import PrimFloat FloatOps SpecFloat.
From Stdlib Require Import ZArith List String Ascii Bool Lia DecimalString.
Import ListNotations.

Open Scope string_scope.
Open Scope list_scope.
Open Scope Z_scope.

Set Warnings "-register-all".

(* ================================================================== *)
(** * Python values *)

Inductive pyval : Type :=
| PNone
| PBool (b : bool)
| PInt (z : Z)
| PFloat (f : float)
| PStr (s : string)
| PList (l : list pyval)
| PDict (d : list (string * pyval)).

(** The name of a value's type, as error messages print it. *)
Definition py_type_name (v : pyval) : string :=
  match v with
  | PNone => "NoneType"
  | PBool _ => "bool"
  | PInt _ => "int"
  | PFloat _ => "float"
  | PStr _ => "str"
  | PList _ => "list"
  | PDict _ => "dict"
  end.

(** Truth value testing, [bool(v)]. *)
Definition py_truthy (v : pyval) : bool :=
  match v with
  | PNone => false
  | PBool b => b
  | PInt z => negb (z =? 0)
  | PFloat f => negb (PrimFloat.eqb f 0%float)
  | PStr s => negb (String.eqb s "")
  | PList l => match l with [] => false | _ :: _ => true end
  | PDict d => match d with [] => false | _ :: _ => true end
  end.

Definition is_none (v : pyval) : bool :=
  match v with PNone => true | _ => false end.

(** [repr] of a string without quotes, backslashes or control characters
    (every key this file looks up is one). *)
Definition py_repr_str (s : string) : string := "'" ++ s ++ "'".

Definition py_repr_int (z : Z) : string := NilZero.string_of_int (Z.to_int z).

Definition py_repr_nat (n : nat) : string := py_repr_int (Z.of_nat n).

(* ================================================================== *)
(** * Exceptions *)

Inductive exn_class : Type :=
| KeyError | IndexError | TypeError | AttributeError | ValueError
| OverflowError
| LibraryError.   (* any class raised inside Flask, requests or the model *)

Record exn : Type := mkExn { class_of : exn_class; str_exn : string }.

Inductive result (A : Type) : Type :=
| Ok (a : A)
| Raise (e : exn).
Arguments Ok {A} a.
Arguments Raise {A} e.

(** Dictionary lookup.  A parsed JSON object holds each key once; on a list
    that repeats a key, the first binding counts. *)
Fixpoint lookup (k : string) (d : list (string * pyval)) : option pyval :=
  match d with
  | [] => None
  | (k', v) :: d' => if String.eqb k k' then Some v else lookup k d'
  end.

(** [d.get(k, default)] *)
Definition py_get (d : pyval) (k : string) (default : pyval) : result pyval :=
  match d with
  | PDict kvs =>
      match lookup k kvs with
      | Some v => Ok v
      | None => Ok default
      end
  | _ => Raise (mkExn AttributeError
                  ("'" ++ py_type_name d ++ "' object has no attribute 'get'"))
  end.

(** [d[k]] for a string [k] *)
Definition py_getitem (d : pyval) (k : string) : result pyval :=
  match d with
  | PDict kvs =>
      match lookup k kvs with
      | Some v => Ok v
      | None => Raise (mkExn KeyError (py_repr_str k))
      end
  | PList _ =>
      Raise (mkExn TypeError "list indices must be integers or slices, not str")
  | PStr _ =>
      Raise (mkExn TypeError "string indices must be integers, not 'str'")
  | _ => Raise (mkExn TypeError
                  ("'" ++ py_type_name d ++ "' object is not subscriptable"))
  end.

(** [v[0]].  A parsed JSON object has string keys only, so [0] is never a
    key of it. *)
Definition py_first (v : pyval) : result pyval :=
  match v with
  | PList (x :: _) => Ok x
  | PList [] => Raise (mkExn IndexError "list index out of range")
  | PStr (String c _) => Ok (PStr (String c ""))
  | PStr "" => Raise (mkExn IndexError "string index out of range")
  | PDict _ => Raise (mkExn KeyError "0")
  | _ => Raise (mkExn TypeError
                  ("'" ++ py_type_name v ++ "' object is not subscriptable"))
  end.

(** [float(n)] for a Python integer: the nearest binary64 number, ties to
    even; an integer that rounds past the largest finite one raises. *)
Definition int_to_float (z : Z) : option float :=
  match binary_normalize prec emax z 0 false with
  | S754_infinity _ => None
  | sf => Some (SF2Prim sf)
  end.

(* ================================================================== *)
(** * The sensor reading, requests and responses *)

Inductive conn : Type := connected | disconnected.

(** The dictionary [latest_sensor_data].  [timestamp] holds
    [datetime.now().isoformat()], here the instant itself. *)
Record sensor : Type := mkSensor {
  temperature : option float;
  timestamp : option Z;
  status : conn
}.

(** Its value when the module is loaded. *)
Definition latest_sensor_data : sensor :=
  {| temperature := None; timestamp := None; status := disconnected |}.

Inductive http_method : Type := POST | OPTIONS.

Record request : Type := mkRequest {
  method : http_method;
  get_json : result pyval
}.

Record confidence : Type := mkConfidence {
  low : float;
  medium : float;
  high : float
}.

Record prediction_body : Type := mkPrediction {
  risk : string;
  risk_code : Z;
  confidence_of : confidence;
  recommendations : list string
}.

Record features_used : Type := mkFeaturesUsed {
  temperature_max : pyval;
  temperature_min : pyval;
  wind_speed_max : pyval;
  wind_gusts_max : pyval;
  precipitation : pyval
}.

Record sensor_info : Type := mkSensorInfo {
  features_used_of : features_used;
  data_source : string;
  sensor_status : conn;
  sensor_note : option string
}.

Inductive response : Type :=
| Preflight                                        (* '', 204 *)
| Error (code : Z) (message : string)              (* {'error': message}, code *)
| Received (temp : pyval) (received_at : Z)        (* {'status': 'success', ...}, 200 *)
| SensorData (s : sensor)                          (* latest_sensor_data, 200 *)
| Predicted (p : prediction_body)                       (* /predict, 200 *)
| PredictedWithSensor (p : prediction_body) (i : sensor_info)  (* /predict-with-sensor, 200 *)
| Health (model_loaded : bool) (sensor : conn)     (* GET /, 200 *)
| Unhandled (e : exn).                             (* Flask's own 500 page *)

Definition status_code (r : response) : Z :=
  match r with
  | Preflight => 204
  | Error code _ => code
  | Unhandled _ => 500
  | _ => 200
  end.

Definition error_message (r : response) : option string :=
  match r with
  | Error _ m => Some m
  | _ => None
  end.

(* ================================================================== *)
(** * The handlers' monad *)

(** A call to the outside, as the handlers make them. *)
Inductive event : Type :=
| Forecast (latitude longitude : pyval)   (* requests.get(meteo_url, ...) *)
| Predict (features : list pyval)         (* model.predict([features]) *)
| PredictProba (features : list pyval).   (* model.predict_proba([features]) *)

Record world : Type := mkWorld {
  sensor_data : sensor;
  calls : list event    (* oldest first *)
}.

Definition M (A : Type) : Type := world -> result A * world.

Definition ret {A} (a : A) : M A := fun w => (Ok a, w).

Definition bind {A B} (c : M A) (k : A -> M B) : M B :=
  fun w =>
    match c w with
    | (Ok a, w') => k a w'
    | (Raise e, w') => (Raise e, w')
    end.

Notation "x <- c ;; k" := (bind c (fun x => k))
  (at level 61, c at next level, right associativity).
Notation "c ;;; k" := (bind c (fun _ => k))
  (at level 61, right associativity).

Definition lift {A} (r : result A) : M A := fun w => (r, w).

Definition read_sensor : M sensor := fun w => (Ok (sensor_data w), w).

Definition write_sensor (f : sensor -> sensor) : M unit :=
  fun w => (Ok tt, {| sensor_data := f (sensor_data w); calls := calls w |}).

Definition set_temperature (t : option float) : M unit :=
  write_sensor (fun s =>
    {| temperature := t; timestamp := timestamp s; status := status s |}).

Definition set_timestamp (t : option Z) : M unit :=
  write_sensor (fun s =>
    {| temperature := temperature s; timestamp := t; status := status s |}).

Definition set_status (c : conn) : M unit :=
  write_sensor (fun s =>
    {| temperature := temperature s; timestamp := timestamp s; status := c |}).

Definition call (e : event) : M unit :=
  fun w => (Ok tt, {| sensor_data := sensor_data w; calls := calls w ++ [e] |}).

(** [try: body  except Exception as e: return jsonify({'error': str(e)}), 500] *)
Definition try_except (body : M response) : world -> response * world :=
  fun w =>
    match body w with
    | (Ok r, w') => (r, w')
    | (Raise e, w') => (Error 500 (str_exn e), w')
    end.

(** A handler body outside any [try]. *)
Definition unguarded (body : M response) : world -> response * world :=
  fun w =>
    match body w with
    | (Ok r, w') => (r, w')
    | (Raise e, w') => (Unhandled e, w')
    end.

(* ================================================================== *)
(** * Risk labels and recommendations *)

(** The dictionary [RISK_LABELS]. *)
Definition RISK_LABELS (code : Z) : option string :=
  match code with
  | 0 => Some "Low"
  | 1 => Some "Medium"
  | 2 => Some "High"
  | _ => None
  end.

(** [RISK_LABELS[prediction]] *)
Definition risk_label (prediction : Z) : result string :=
  match RISK_LABELS prediction with
  | Some l => Ok l
  | None => Raise (mkExn KeyError (py_repr_int prediction))
  end.

(** [recommendations.get(risk_level, [])] over the table written in
    [get_recommendations]. *)
Definition get_recommendations (risk_level : string) : list string :=
  if String.eqb risk_level "Low" then
    [ "Conditions are safe for outdoor activities";
      "Stay hydrated with regular water intake";
      "Normal precautions are sufficient" ]
  else if String.eqb risk_level "Medium" then
    [ "Stay hydrated - drink water every 30-45 minutes";
      "Limit outdoor activities during peak afternoon hours";
      "Wear light, loose-fitting clothing";
      "Take frequent breaks in shaded areas" ]
  else if String.eqb risk_level "High" then
    [ "Stay indoors as much as possible";
      "Drink water every 20-30 minutes";
      "Avoid ALL outdoor activities between 11 AM - 5 PM";
      "Seek air-conditioned environments";
      "Know heatstroke symptoms: confusion, dizziness, nausea" ]
  else [].

(* ================================================================== *)
(** * The classifier *)

(** The interface of the classifier unpickled from
    [Model/heatwave_risk_model.pkl]: the feature list goes to an integer class
    index and to the array of class probabilities.  The classifier itself is
    a parameter of the service, and either call may raise. *)
Record classifier : Type := mkClassifier {
  clf_predict : list pyval -> result Z;                 (* model.predict([features])[0] *)
  clf_predict_proba : list pyval -> result (list float) (* model.predict_proba([features])[0] *)
}.

(** [probabilities[i]] on the array the classifier returned. *)
Definition proba_at (probabilities : list float) (i : nat) : result float :=
  match nth_error probabilities i with
  | Some p => Ok p
  | None =>
      Raise (mkExn IndexError
               ("index " ++ py_repr_nat i ++ " is out of bounds for axis 0 with size "
                  ++ py_repr_nat (List.length probabilities)))
  end.

(** [daily[name][0]] *)
Definition daily_first (daily : pyval) (name : string) : result pyval :=
  match py_getitem daily name with
  | Ok column => py_first column
  | Raise e => Raise e
  end.

(* ================================================================== *)
(** * A sample deployment

    A classifier that always answers class 2, a forecast provider that
    always answers the same day, and a few requests: the inputs of the
    examples at the end of the file. *)

Definition sample_model : classifier :=
  {| clf_predict := fun _ => Ok 2;
     clf_predict_proba := fun _ => Ok [0.125%float; 0.25%float; 0.625%float] |}.

Definition sample_day : pyval :=
  PDict [ ("temperature_2m_max", PList [PFloat 35]);
          ("temperature_2m_min", PList [PFloat 24]);
          ("wind_speed_10m_max", PList [PFloat 10]);
          ("wind_gusts_10m_max", PList [PFloat 15]);
          ("precipitation_sum", PList [PFloat 0]) ].

Definition sample_forecast (latitude longitude : pyval) : result pyval :=
  Ok (PDict [ ("latitude", latitude); ("longitude", longitude);
              ("daily", sample_day) ]).

(** A [float_of_str] that accepts no text.  The sample requests carry
    numbers, so [float] never consults it on them. *)
Definition text_refused (s : string) : result float :=
  Raise (mkExn ValueError
           ("could not convert string to float: " ++ py_repr_str s)).

(** The world when the module has just been loaded. *)
Definition fresh_world : world :=
  {| sensor_data := latest_sensor_data; calls := [] |}.

(** A world whose reading is old: 20 degrees taken at instant 0, and already
    seen to be stale. *)
Definition stale_world : world :=
  {| sensor_data :=
       {| temperature := Some 20%float; timestamp := Some 0;
          status := disconnected |};
     calls := [] |}.

Definition post (fields : list (string * pyval)) : request :=
  {| method := POST; get_json := Ok (PDict fields) |}.

(** [{"temperature": 42.0}] *)
Definition ingest_42 : request := post [ ("temperature", PFloat 42) ].

(** [{"latitude": 18.5, "longitude": 73.75, "use_sensor": true}] *)
Definition coordinates_with_sensor : request :=
  post [ ("latitude", PFloat 18.5); ("longitude", PFloat 73.75);
         ("use_sensor", PBool true) ].

(** [{"latitude": 18.5, "longitude": 73.75, "use_sensor": false}] *)
Definition coordinates_without_sensor : request :=
  post [ ("latitude", PFloat 18.5); ("longitude", PFloat 73.75);
         ("use_sensor", PBool false) ].

(** The five features of section 8's example, [{35, 24, 10, 15, 0}]. *)
Definition five_features : request :=
  post [ ("temperature_2m_max", PInt 35); ("temperature_2m_min", PInt 24);
         ("wind_speed_10m_max", PInt 10); ("wind_gusts_10m_max", PInt 15);
         ("precipitation_sum", PInt 0) ].

(** A direct-feature request with only the first field. *)
Definition one_feature : request :=
  post [ ("temperature_2m_max", PInt 35) ].

(* ================================================================== *)
(** * The service *)

Section Service.

(** [float(s)] for a string [s]: Python's parser of float literals, with
    the [ValueError] it raises on other text. *)
Variable float_of_str : string -> result float.

(** The global [model]: [None] when unpickling failed at load time. *)
Variable model : option classifier.

(** [requests.get(meteo_url, params={'latitude': ..., 'longitude': ..., ...},
    timeout=10).json()]: the forecast provider's answer, or what the call
    raises. *)
Variable open_meteo : pyval -> pyval -> result pyval.

(** [float(v)] *)
Definition py_float (v : pyval) : result float :=
  match v with
  | PFloat f => Ok f
  | PInt z =>
      match int_to_float z with
      | Some f => Ok f
      | None => Raise (mkExn OverflowError "int too large to convert to float")
      end
  | PBool b => Ok (if b then 1%float else 0%float)
  | PStr s => float_of_str s
  | _ => Raise (mkExn TypeError
                  ("float() argument must be a string or a real number, not '"
                     ++ py_type_name v ++ "'"))
  end.

(* ================================================================== *)
(** * The sensor handlers *)

(** A reading older than this many microseconds is stale (10 seconds). *)
Definition stale_after : Z := 10 * 1000000.

(** [POST /sensor/temperature] *)
Definition receive_sensor_data (now : Z) (req : request)
  : world -> response * world :=
  match method req with
  | OPTIONS => unguarded (ret Preflight)
  | POST =>
      try_except (
        data <- lift (get_json req) ;;
        temp <- lift (py_get data "temperature" PNone) ;;
        if is_none temp then ret (Error 400 "No temperature data")
        else
          t <- lift (py_float temp) ;;
          set_temperature (Some t) ;;;
          set_timestamp (Some now) ;;;
          set_status connected ;;;
          ret (Received temp now))
  end.

(** [GET /sensor/temperature].  [(datetime.now() - last_update).total_seconds()]
    is the exact difference in microseconds divided by [10**6], rounded to
    the nearest float; it exceeds [10] exactly when the difference exceeds
    [stale_after]. *)
Definition get_sensor_data (now : Z) : world -> response * world :=
  unguarded (
    s <- read_sensor ;;
    match timestamp s with
    | Some last_update =>
        if stale_after <? now - last_update
        then set_status disconnected
        else ret tt
    | None => ret tt
    end ;;;
    s' <- read_sensor ;;
    ret (SensorData s')).

(* ================================================================== *)
(** * The prediction handlers *)

Definition requests_get (latitude longitude : pyval) : M pyval :=
  call (Forecast latitude longitude) ;;;
  lift (open_meteo latitude longitude).

Definition model_predict (m : classifier) (features : list pyval) : M Z :=
  call (Predict features) ;;;
  lift (clf_predict m features).

Definition model_predict_proba (m : classifier) (features : list pyval)
  : M (list float) :=
  call (PredictProba features) ;;;
  lift (clf_predict_proba m features).

(** The response fields both prediction handlers compute from the
    classifier's answer: ['risk'], ['risk_code'], ['confidence'] and (last
    in the dictionary) ['recommendations']. *)
Definition prediction_fields (prediction : Z) (probabilities : list float)
  : M prediction_body :=
  label <- lift (risk_label prediction) ;;
  p0 <- lift (proba_at probabilities 0) ;;
  p1 <- lift (proba_at probabilities 1) ;;
  p2 <- lift (proba_at probabilities 2) ;;
  ret {| risk := label;
         risk_code := prediction;
         confidence_of := {| low := p0; medium := p1; high := p2 |};
         recommendations := get_recommendations label |}.

(** [POST /predict-with-sensor] *)
Definition predict_with_sensor (req : request) : world -> response * world :=
  match method req with
  | OPTIONS => unguarded (ret Preflight)
  | POST =>
      match model with
      | None => unguarded (ret (Error 500 "Model not loaded"))
      | Some m =>
          try_except (
            data <- lift (get_json req) ;;
            latitude <- lift (py_get data "latitude" PNone) ;;
            longitude <- lift (py_get data "longitude" PNone) ;;
            use_sensor <- lift (py_get data "use_sensor" (PBool false)) ;;
            if negb (py_truthy latitude) || negb (py_truthy longitude)
            then ret (Error 400 "Latitude and longitude required")
            else
              meteo_data <- requests_get latitude longitude ;;
              daily <- lift (py_getitem meteo_data "daily") ;;
              s <- read_sensor ;;
              chosen <-
                match py_truthy use_sensor, temperature s with
                | true, Some t => ret (PFloat t, "sensor")
                | _, _ =>
                    t <- lift (daily_first daily "temperature_2m_max") ;;
                    ret (t, "open-meteo")
                end ;;
              let temp_max := fst chosen in
              let source := snd chosen in
              temp_min <- lift (daily_first daily "temperature_2m_min") ;;
              wind_speed <- lift (daily_first daily "wind_speed_10m_max") ;;
              wind_gusts <- lift (daily_first daily "wind_gusts_10m_max") ;;
              precip <- lift (daily_first daily "precipitation_sum") ;;
              let features :=
                [temp_max; temp_min; wind_speed; wind_gusts; precip] in
              prediction <- model_predict m features ;;
              probabilities <- model_predict_proba m features ;;
              p <- prediction_fields prediction probabilities ;;
              s' <- read_sensor ;;
              ret (PredictedWithSensor p
                     {| features_used_of :=
                          {| temperature_max := temp_max;
                             temperature_min := temp_min;
                             wind_speed_max := wind_speed;
                             wind_gusts_max := wind_gusts;
                             precipitation := precip |};
                        data_source := source;
                        sensor_status := status s';
                        sensor_note :=
                          if negb (py_truthy use_sensor)
                          then Some "Hardware functionality not yet implemented"
                          else None |}))
      end
  end.

(** [POST /predict] *)
Definition predict (req : request) : world -> response * world :=
  match method req with
  | OPTIONS => unguarded (ret Preflight)
  | POST =>
      match model with
      | None => unguarded (ret (Error 500 "Model not loaded"))
      | Some m =>
          try_except (
            data <- lift (get_json req) ;;
            temp_max <- lift (py_getitem data "temperature_2m_max") ;;
            temp_min <- lift (py_getitem data "temperature_2m_min") ;;
            wind_speed <- lift (py_getitem data "wind_speed_10m_max") ;;
            wind_gusts <- lift (py_getitem data "wind_gusts_10m_max") ;;
            precip <- lift (py_getitem data "precipitation_sum") ;;
            let features :=
              [temp_max; temp_min; wind_speed; wind_gusts; precip] in
            prediction <- model_predict m features ;;
            probabilities <- model_predict_proba m features ;;
            p <- prediction_fields prediction probabilities ;;
            ret (Predicted p))
      end
  end.

(** [GET /] *)
Definition health_check : world -> response * world :=
  unguarded (
    s <- read_sensor ;;
    ret (Health (match model with Some _ => true | None => false end)
                (status s))).

(* ================================================================== *)
(** * The application: one request after another *)

Inductive operation : Type :=
| HealthCheck
| ReceiveSensorData (now : Z) (req : request)
| GetSensorData (now : Z)
| PredictWithSensor (req : request)
| PredictDirect (req : request).

Definition handle (o : operation) : world -> response * world :=
  match o with
  | HealthCheck => health_check
  | ReceiveSensorData now req => receive_sensor_data now req
  | GetSensorData now => get_sensor_data now
  | PredictWithSensor req => predict_with_sensor req
  | PredictDirect req => predict req
  end.

Fixpoint serve (os : list operation) (w : world) : world :=
  match os with
  | [] => w
  | o :: os' => serve os' (snd (handle o w))
  end.

Definition is_ingest (o : operation) : bool :=
  match o with
  | ReceiveSensorData _ _ => true
  | _ => false
  end.

Definition no_ingest (os : list operation) : Prop :=
  Forall (fun o => is_ingest o = false) os.

(** Every sensor read among [os] happens no later than [t]. *)
Definition reads_by (t : Z) (os : list operation) : Prop :=
  Forall (fun o => match o with GetSensorData now => now <= t | _ => True end) os.

(* ================================================================== *)
(** * Vocabulary of the properties *)

(** The reading as [get_sensor_data] leaves it at the instant [now]. *)
Definition refreshed (now : Z) (s : sensor) : sensor :=
  match timestamp s with
  | Some last_update =>
      if stale_after <? now - last_update
      then {| temperature := temperature s; timestamp := timestamp s;
              status := disconnected |}
      else s
  | None => s
  end.

(** A body that leaves [latest_sensor_data] as it found it, whatever it
    returns or raises. *)
Definition keeps_sensor {A} (c : M A) : Prop :=
  forall w, sensor_data (snd (c w)) = sensor_data w.

(** The feature vector in the order the classifier was trained on. *)
Definition feature_vector (f : features_used) : list pyval :=
  [ temperature_max f; temperature_min f; wind_speed_max f;
    wind_gusts_max f; precipitation f ].

(** The response fields [p] are the classifier's answer on [features]. *)
Definition classified (m : classifier) (features : list pyval)
  (p : prediction_body) : Prop :=
  exists probabilities,
    clf_predict m features = Ok (risk_code p) /\
    clf_predict_proba m features = Ok probabilities /\
    RISK_LABELS (risk_code p) = Some (risk p) /\
    nth_error probabilities 0 = Some (low (confidence_of p)) /\
    nth_error probabilities 1 = Some (medium (confidence_of p)) /\
    nth_error probabilities 2 = Some (high (confidence_of p)) /\
    recommendations p = get_recommendations (risk p).

(** [t_max] is the maximum temperature [predict_with_sensor] chooses: the
    stored temperature when [use_sensor] is true and there is one, the
    forecast's [daily['temperature_2m_max'][0]] otherwise. *)
Definition chosen_max (use_sensor : pyval) (s : sensor) (daily t_max : pyval)
  : Prop :=
  (py_truthy use_sensor = true /\
   exists T, temperature s = Some T /\ t_max = PFloat T)
  \/
  ((py_truthy use_sensor = false \/ temperature s = None) /\
   daily_first daily "temperature_2m_max" = Ok t_max).

(** [features] is the vector [predict_with_sensor] assembles for the
    request [req] in the world [w]: the request is read, the forecast for
    its coordinates is fetched, the maximum temperature is the sensor's when
    [use_sensor] is true and a temperature is stored, the forecast's
    otherwise, and the other four features are the forecast's. *)
Definition assembled (req : request) (w : world) (features : list pyval) : Prop :=
  exists data latitude longitude use_sensor meteo_data daily
         t_max t_min w_speed w_gusts precip,
    get_json req = Ok data /\
    py_get data "latitude" PNone = Ok latitude /\
    py_get data "longitude" PNone = Ok longitude /\
    py_get data "use_sensor" (PBool false) = Ok use_sensor /\
    open_meteo latitude longitude = Ok meteo_data /\
    py_getitem meteo_data "daily" = Ok daily /\
    chosen_max use_sensor (sensor_data w) daily t_max /\
    daily_first daily "temperature_2m_min" = Ok t_min /\
    daily_first daily "wind_speed_10m_max" = Ok w_speed /\
    daily_first daily "wind_gusts_10m_max" = Ok w_gusts /\
    daily_first daily "precipitation_sum" = Ok precip /\
    features = [t_max; t_min; w_speed; w_gusts; precip].

(** A call to the classifier is on a vector that meets [P]. *)
Definition classifier_on (P : list pyval -> Prop) (e : event) : Prop :=
  match e with
  | Forecast _ _ => True
  | Predict features => P features
  | PredictProba features => P features
  end.

(** The calls a handler adds to the log all meet [P]. *)
Definition logs (P : event -> Prop) (w w' : world) : Prop :=
  exists l, calls w' = calls w ++ l /\ Forall P l.

(** [Q] holds of what [c] returns or raises and of the world it leaves. *)
Definition wp {A} (c : M A) (Q : result A -> world -> Prop) (w : world) : Prop :=
  Q (fst (c w)) (snd (c w)).

(** The five fields of a direct-feature request, in feature order. *)
Definition feature_fields : list string :=
  [ "temperature_2m_max"; "temperature_2m_min"; "wind_speed_10m_max";
    "wind_gusts_10m_max"; "precipitation_sum" ].

Definition absent (data : list (string * pyval)) (k : string) : bool :=
  match lookup k data with
  | None => true
  | Some _ => false
  end.

Definition missing_fields (data : list (string * pyval)) : list string :=
  filter (absent data) feature_fields.

Definition first_missing (data : list (string * pyval)) : option string :=
  find (absent data) feature_fields.

(** [needle in hay] *)
Fixpoint occurs (needle hay : string) : bool :=
  String.prefix needle hay ||
  match hay with
  | EmptyString => false
  | String _ rest => occurs needle rest
  end.

(* ================================================================== *)
(** * Reasoning about handler bodies *)

Lemma bind_ok {A B} (c : M A) (k : A -> M B) (w w' : world) (b : B) :
  bind c k w = (Ok b, w') ->
  exists a w1, c w = (Ok a, w1) /\ k a w1 = (Ok b, w').
Proof.
  unfold bind. destruct (c w) as [[a | e] w1]; intro H.
  - exists a, w1. split; [reflexivity | exact H].
  - discriminate H.
Qed.

Lemma lift_ok {A} (r : result A) (w w' : world) (a : A) :
  lift r w = (Ok a, w') -> r = Ok a /\ w' = w.
Proof. unfold lift. intro H. inversion H. split; reflexivity. Qed.

Lemma ret_ok {A} (x a : A) (w w' : world) :
  ret x w = (Ok a, w') -> a = x /\ w' = w.
Proof. unfold ret. intro H. inversion H. split; reflexivity. Qed.

Lemma read_sensor_ok (w w' : world) (s : sensor) :
  read_sensor w = (Ok s, w') -> s = sensor_data w /\ w' = w.
Proof. unfold read_sensor. intro H. inversion H. split; reflexivity. Qed.

Lemma call_ok (e : event) (w w' : world) (u : unit) :
  call e w = (Ok u, w') ->
  w' = {| sensor_data := sensor_data w; calls := calls w ++ [e] |}.
Proof. unfold call. intro H. inversion H. reflexivity. Qed.

Lemma try_except_ok (body : M response) (w w' : world) (r : response) :
  try_except body w = (r, w') ->
  body w = (Ok r, w') \/
  exists e, body w = (Raise e, w') /\ r = Error 500 (str_exn e).
Proof.
  unfold try_except. destruct (body w) as [[r0 | e] w1]; intro H; inversion H; subst.
  - left. reflexivity.
  - right. exists e. split; reflexivity.
Qed.

Lemma wp_bind {A B} (c : M A) (k : A -> M B)
  (Q : result B -> world -> Prop) (w : world) :
  wp c (fun r w1 =>
          match r with
          | Ok a => wp (k a) Q w1
          | Raise e => Q (Raise e) w1
          end) w ->
  wp (bind c k) Q w.
Proof.
  unfold wp, bind. destruct (c w) as [[a | e] w1]; cbn [fst snd]; auto.
Qed.

Lemma wp_lift {A} (r : result A) (Q : result A -> world -> Prop) (w : world) :
  Q r w -> wp (lift r) Q w.
Proof. auto. Qed.

Lemma wp_ret {A} (a : A) (Q : result A -> world -> Prop) (w : world) :
  Q (Ok a) w -> wp (ret a) Q w.
Proof. auto. Qed.

Lemma wp_read_sensor (Q : result sensor -> world -> Prop) (w : world) :
  Q (Ok (sensor_data w)) w -> wp read_sensor Q w.
Proof. auto. Qed.

Lemma wp_call (e : event) (Q : result unit -> world -> Prop) (w : world) :
  Q (Ok tt) {| sensor_data := sensor_data w; calls := calls w ++ [e] |} ->
  wp (call e) Q w.
Proof. auto. Qed.

Lemma wp_try_except (body : M response) (Q : world -> Prop) (w : world) :
  wp body (fun _ w' => Q w') w -> Q (snd (try_except body w)).
Proof.
  unfold wp, try_except. destruct (body w) as [[r | e] w1]; auto.
Qed.

Lemma logs_nothing (P : event -> Prop) (w : world) : logs P w w.
Proof. exists []. split; [symmetry; apply app_nil_r | constructor]. Qed.

Lemma logs_same (P : event -> Prop) (w : world) (s : sensor) :
  logs P w {| sensor_data := s; calls := calls w |}.
Proof. apply (logs_nothing P w). Qed.

Lemma logs_more (P : event -> Prop) (w : world) (s : sensor)
  (l : list event) (e : event) :
  logs P w {| sensor_data := s; calls := l |} -> P e ->
  logs P w {| sensor_data := s; calls := l ++ [e] |}.
Proof.
  intros (l0 & Hl & HP) He. exists (l0 ++ [e]). cbn [calls] in *. split.
  - rewrite Hl, app_assoc. reflexivity.
  - apply Forall_app. split; [exact HP | repeat constructor; exact He].
Qed.

Lemma logs_weaken (P Q : event -> Prop) (w w' : world) :
  (forall e, P e -> Q e) -> logs P w w' -> logs Q w w'.
Proof.
  intros HPQ (l & Hl & HP). exists l. split; [exact Hl | ].
  apply (Forall_impl Q HPQ HP).
Qed.

Lemma keeps_ret {A} (a : A) : keeps_sensor (ret a).
Proof. intro w. reflexivity. Qed.

Lemma keeps_lift {A} (r : result A) : keeps_sensor (lift r).
Proof. intro w. reflexivity. Qed.

Lemma keeps_read : keeps_sensor read_sensor.
Proof. intro w. reflexivity. Qed.

Lemma keeps_call (e : event) : keeps_sensor (call e).
Proof. intro w. reflexivity. Qed.

Lemma keeps_bind {A B} (c : M A) (k : A -> M B) :
  keeps_sensor c -> (forall a, keeps_sensor (k a)) -> keeps_sensor (bind c k).
Proof.
  intros Hc Hk w. unfold bind. specialize (Hc w).
  destruct (c w) as [[a | e] w1]; simpl in *.
  - rewrite Hk. exact Hc.
  - exact Hc.
Qed.

Lemma keeps_try_except (body : M response) (w : world) :
  keeps_sensor body -> sensor_data (snd (try_except body w)) = sensor_data w.
Proof.
  intro H. unfold try_except. specialize (H w).
  destruct (body w) as [[r | e] w1]; exact H.
Qed.

Lemma keeps_unguarded (body : M response) (w : world) :
  keeps_sensor body -> sensor_data (snd (unguarded body w)) = sensor_data w.
Proof.
  intro H. unfold unguarded. specialize (H w).
  destruct (body w) as [[r | e] w1]; exact H.
Qed.

Ltac keeps_sensor_tac :=
  repeat first
    [ apply keeps_ret | apply keeps_lift | apply keeps_read | apply keeps_call
    | apply keeps_bind; [ | intros ? ]
    | match goal with
      | |- keeps_sensor (if ?b then _ else _) => destruct b
      | |- keeps_sensor (match ?x with _ => _ end) => destruct x
      end ].

Lemma predict_keeps_sensor (req : request) (w : world) :
  sensor_data (snd (predict req w)) = sensor_data w.
Proof.
  unfold predict. destruct (method req).
  - destruct model as [m | ].
    + apply keeps_try_except.
      unfold model_predict, model_predict_proba, prediction_fields.
      keeps_sensor_tac.
    + reflexivity.
  - reflexivity.
Qed.

Lemma predict_with_sensor_keeps_sensor (req : request) (w : world) :
  sensor_data (snd (predict_with_sensor req w)) = sensor_data w.
Proof.
  unfold predict_with_sensor. destruct (method req).
  - destruct model as [m | ].
    + apply keeps_try_except.
      unfold requests_get, model_predict, model_predict_proba, prediction_fields.
      keeps_sensor_tac.
    + reflexivity.
  - reflexivity.
Qed.

Lemma health_check_keeps_sensor (w : world) :
  sensor_data (snd (health_check w)) = sensor_data w.
Proof. reflexivity. Qed.

(* ================================================================== *)
(** * The sensor state *)

Lemma get_sensor_data_refreshed (now : Z) (w : world) :
  fst (get_sensor_data now w) = SensorData (refreshed now (sensor_data w)) /\
  sensor_data (snd (get_sensor_data now w)) = refreshed now (sensor_data w) /\
  calls (snd (get_sensor_data now w)) = calls w.
Proof.
  unfold get_sensor_data, refreshed, unguarded, bind, read_sensor, set_status,
    write_sensor, ret.
  destruct w as [[T [ts | ] st] l]; cbn.
  - destruct (_ <? now - ts); cbn; auto.
  - auto.
Qed.

Lemma refreshed_frame (now : Z) (s : sensor) :
  temperature (refreshed now s) = temperature s /\
  timestamp (refreshed now s) = timestamp s /\
  (status (refreshed now s) = status s \/
   status (refreshed now s) = disconnected /\
   exists last_update,
     timestamp s = Some last_update /\ stale_after < now - last_update).
Proof.
  unfold refreshed. destruct (timestamp s) as [ts | ] eqn:Hts.
  - destruct (stale_after <? now - ts) eqn:Hlt; cbn.
    + repeat split; auto. right. split; [reflexivity | ].
      exists ts. split; [reflexivity | ]. apply Z.ltb_lt. exact Hlt.
    + repeat split; auto.
  - repeat split; auto.
Qed.

(** What an ingest request does: either it is accepted, and the reading is
    replaced, or the world is left as it was. *)
Lemma receive_sensor_data_cases (now : Z) (req : request) (w : world) :
  (exists temp T,
     py_float temp = Ok T /\
     receive_sensor_data now req w =
       (Received temp now,
        {| sensor_data :=
             {| temperature := Some T; timestamp := Some now;
                status := connected |};
           calls := calls w |}))
  \/
  (snd (receive_sensor_data now req w) = w /\
   forall temp t, fst (receive_sensor_data now req w) <> Received temp t).
Proof.
  unfold receive_sensor_data.
  destruct (method req).
  - unfold try_except, bind, lift.
    destruct (get_json req) as [data | e]; [ | right; split; [reflexivity | discriminate] ].
    destruct (py_get data "temperature" PNone) as [temp | e];
      [ | right; split; [reflexivity | discriminate] ].
    destruct (is_none temp); [ right; split; [reflexivity | discriminate] | ].
    destruct (py_float temp) as [T | e] eqn:HT;
      [ | right; split; [reflexivity | discriminate] ].
    left. exists temp, T. split; [exact HT | reflexivity].
  - right. split; [reflexivity | discriminate].
Qed.

(** A request that is not an ingest keeps the temperature and the
    timestamp; only a read can change the status, to [disconnected]. *)
Lemma handle_frame (o : operation) (w : world) :
  is_ingest o = false ->
  temperature (sensor_data (snd (handle o w))) = temperature (sensor_data w) /\
  timestamp (sensor_data (snd (handle o w))) = timestamp (sensor_data w) /\
  (status (sensor_data (snd (handle o w))) = status (sensor_data w) \/
   status (sensor_data (snd (handle o w))) = disconnected /\
   exists now last_update,
     o = GetSensorData now /\
     timestamp (sensor_data w) = Some last_update /\
     stale_after < now - last_update).
Proof.
  destruct o as [ | now req | now | req | req ]; cbn [is_ingest handle]; intro H.
  - rewrite health_check_keeps_sensor. auto.
  - discriminate H.
  - destruct (get_sensor_data_refreshed now w) as (_ & -> & _).
    destruct (refreshed_frame now (sensor_data w)) as (Ht & Hs & [Hc | (Hd & ts & Hts & Hlt)]).
    + auto.
    + repeat split; auto. right. split; [exact Hd | ]. exists now, ts. auto.
  - rewrite predict_with_sensor_keeps_sensor. auto.
  - rewrite predict_keeps_sensor. auto.
Qed.

Lemma serve_frame (T : float) (t0 t1 : Z) (os : list operation) :
  forall w,
    no_ingest os ->
    temperature (sensor_data w) = Some T ->
    timestamp (sensor_data w) = Some t0 ->
    temperature (sensor_data (serve os w)) = Some T /\
    timestamp (sensor_data (serve os w)) = Some t0 /\
    (status (sensor_data w) = connected ->
     t1 - t0 <= stale_after -> reads_by t1 os ->
     status (sensor_data (serve os w)) = connected).
Proof.
  induction os as [ | o os IH ]; intros w Hno HT Ht0.
  - cbn. auto.
  - inversion Hno as [ | ? ? Ho Hos ]; subst.
    destruct (handle_frame o w Ho) as (HT' & Ht' & Hst).
    cbn [serve].
    destruct (IH (snd (handle o w)) Hos) as (IT & It & Ist).
    + rewrite HT'. exact HT.
    + rewrite Ht'. exact Ht0.
    + repeat split; auto.
      intros Hc Hfresh Hreads. inversion Hreads as [ | ? ? Hread Hrest ]; subst.
      apply Ist; auto.
      destruct Hst as [Hsame | (_ & now & ts & -> & Hts & Hlt)].
      * rewrite Hsame. exact Hc.
      * rewrite Ht0 in Hts. inversion Hts; subst. lia.
Qed.

(** No accepted ingest, no temperature: from the state the module starts
    in, requests other than ingests leave [temperature] at [None]. *)
Lemma no_ingest_no_temperature (os : list operation) :
  forall w,
    no_ingest os ->
    temperature (sensor_data w) = None ->
    temperature (sensor_data (serve os w)) = None.
Proof.
  induction os as [ | o os IH ]; intros w Hno HT; [exact HT | ].
  inversion Hno as [ | ? ? Ho Hos ]; subst. cbn [serve].
  apply IH; [exact Hos | ].
  destruct (handle_frame o w Ho) as (-> & _). exact HT.
Qed.

Lemma receive_sensor_data_accepts
  (now : Z) (req : request) (data : list (string * pyval)) (temp : pyval)
  (T : float) (w : world) :
  method req = POST ->
  get_json req = Ok (PDict data) ->
  lookup "temperature" data = Some temp ->
  py_float temp = Ok T ->
  receive_sensor_data now req w =
    (Received temp now,
     {| sensor_data :=
          {| temperature := Some T; timestamp := Some now; status := connected |};
        calls := calls w |}).
Proof.
  intros Hm Hj Hl Hf.
  unfold receive_sensor_data, try_except, bind, lift, py_get.
  rewrite Hm, Hj, Hl.
  destruct temp; try (rewrite Hf; reflexivity).
  discriminate Hf.
Qed.

Lemma receive_sensor_data_rejects
  (now : Z) (req : request) (data : list (string * pyval)) (w : world) :
  method req = POST ->
  get_json req = Ok (PDict data) ->
  lookup "temperature" data = None ->
  receive_sensor_data now req w = (Error 400 "No temperature data", w).
Proof.
  intros Hm Hj Hl.
  unfold receive_sensor_data, try_except, bind, lift, py_get.
  rewrite Hm, Hj, Hl. reflexivity.
Qed.

(* ================================================================== *)
(** * Properties of the sensor handlers *)

(** C1 -- Sensor liveness.  After an ingest of temperature [T] accepted at
    time [t0], and any requests other than ingests in between, a read of the
    sensor at time [t1] reports temperature [T]; it reports [connected] when
    [t1 - t0] is at most 10 seconds (the reads in between happened no later
    than [t1]: the clock does not run backwards), and [disconnected] when
    [t1 - t0] exceeds 10 seconds.  The status is settled by the read, from
    the stored timestamp and the clock. *)
Theorem C1_sensor_liveness
  (t0 t1 : Z) (req : request) (data : list (string * pyval)) (temp : pyval)
  (T : float) (between : list operation) (w : world) :
  method req = POST ->
  get_json req = Ok (PDict data) ->
  lookup "temperature" data = Some temp ->
  py_float temp = Ok T ->
  no_ingest between ->
  let ingested := snd (receive_sensor_data t0 req w) in
  let reply := fst (get_sensor_data t1 (serve between ingested)) in
  exists s,
    reply = SensorData s /\
    temperature s = Some T /\
    (t1 - t0 <= stale_after -> reads_by t1 between -> status s = connected) /\
    (stale_after < t1 - t0 -> status s = disconnected).
Proof.
  intros Hm Hj Hl Hf Hno ingested reply.
  subst reply ingested.
  rewrite (receive_sensor_data_accepts t0 req data temp T w Hm Hj Hl Hf).
  cbn [snd].
  set (w0 := {| sensor_data := _; calls := calls w |}).
  destruct (serve_frame T t0 t1 between w0 Hno eq_refl eq_refl) as (HT & Ht & Hst).
  destruct (get_sensor_data_refreshed t1 (serve between w0)) as (-> & _).
  exists (refreshed t1 (sensor_data (serve between w0))).
  split; [reflexivity | ].
  unfold refreshed. rewrite Ht.
  destruct (stale_after <? t1 - t0) eqn:Hlt; cbn [temperature status].
  - apply Z.ltb_lt in Hlt. repeat split; auto. intros; lia.
  - apply Z.ltb_ge in Hlt. repeat split; auto. intros; lia.
Qed.

(** C6 -- Ingest validation.  An ingest request whose JSON object has no
    [temperature] field is answered with the client error 400 and leaves the
    sensor state (and the rest of the world) unchanged; one that supplies a
    temperature [float()] accepts replaces the reading, whatever it was,
    by that temperature and the current time, with status [connected]. *)
Theorem C6_ingest_validation
  (now : Z) (req : request) (data : list (string * pyval)) (w : world) :
  method req = POST ->
  get_json req = Ok (PDict data) ->
  (lookup "temperature" data = None ->
   receive_sensor_data now req w = (Error 400 "No temperature data", w)) /\
  (forall temp T,
     lookup "temperature" data = Some temp ->
     py_float temp = Ok T ->
     fst (receive_sensor_data now req w) = Received temp now /\
     sensor_data (snd (receive_sensor_data now req w)) =
       {| temperature := Some T; timestamp := Some now; status := connected |}).
Proof.
  intros Hm Hj. split.
  - intro Hl. apply (receive_sensor_data_rejects now req data w Hm Hj Hl).
  - intros temp T Hl Hf.
    rewrite (receive_sensor_data_accepts now req data temp T w Hm Hj Hl Hf).
    split; reflexivity.
Qed.

(** C10 -- The read's frame.  A sensor read keeps the stored temperature
    and timestamp; if it changes the status, the status was [connected], it
    becomes [disconnected], and the reading is stale; it never makes the
    status [connected].  Over all the handlers, a request that takes the
    status from [disconnected] to [connected] is an accepted ingest. *)
Theorem C10_read_frame (now : Z) (w : world) :
  let before := sensor_data w in
  let after := sensor_data (snd (get_sensor_data now w)) in
  temperature after = temperature before /\
  timestamp after = timestamp before /\
  (status after <> status before ->
   status before = connected /\ status after = disconnected /\
   exists last_update,
     timestamp before = Some last_update /\ stale_after < now - last_update) /\
  (status after = connected -> status before = connected) /\
  (forall o,
     status before = disconnected ->
     status (sensor_data (snd (handle o w))) = connected ->
     exists t req temp,
       o = ReceiveSensorData t req /\ fst (handle o w) = Received temp t).
Proof.
  intros before after. subst before after.
  destruct (get_sensor_data_refreshed now w) as (_ & -> & _).
  destruct (refreshed_frame now (sensor_data w)) as (HT & Ht & Hst).
  split; [exact HT | ]. split; [exact Ht | ]. split; [ | split ].
  - intro Hne. destruct Hst as [Hsame | (Hd & ts & Hts & Hlt)]; [contradiction | ].
    split; [ | split; [exact Hd | exists ts; auto] ].
    rewrite Hd in Hne. destruct (status (sensor_data w)); congruence.
  - intro Hc. destruct Hst as [Hsame | (Hd & _)]; congruence.
  - intros o Hd Hc.
    destruct (is_ingest o) eqn:Ho.
    + destruct o as [ | t req | t | req | req ]; try discriminate Ho.
      cbn [handle] in *.
      destruct (receive_sensor_data_cases t req w)
        as [(temp & T & _ & Heq) | (Hsame & _)].
      * exists t, req, temp. rewrite Heq. split; reflexivity.
      * rewrite Hsame in Hc. congruence.
    + destruct (handle_frame o w Ho) as (_ & _ & [Hsame | (Hdis & _)]); congruence.
Qed.

(* ================================================================== *)
(** * What a successful prediction implies *)

Ltac run_ok :=
  repeat match goal with
  | H : bind _ _ _ = (Ok _, _) |- _ =>
      apply bind_ok in H; destruct H as (? & ? & ? & H)
  | H : lift _ _ = (Ok _, _) |- _ =>
      apply lift_ok in H; destruct H as [H ?]; subst
  | H : ret _ _ = (Ok _, _) |- _ =>
      apply ret_ok in H; destruct H as [H ?]; subst
  | H : read_sensor _ = (Ok _, _) |- _ =>
      apply read_sensor_ok in H; destruct H as [H ?]; subst
  | H : call _ _ = (Ok _, _) |- _ =>
      apply call_ok in H; subst
  end.

Lemma risk_label_ok (code : Z) (l : string) :
  risk_label code = Ok l -> RISK_LABELS code = Some l.
Proof.
  unfold risk_label. destruct (RISK_LABELS code); intro H; inversion H; reflexivity.
Qed.

Lemma proba_at_ok (probabilities : list float) (i : nat) (x : float) :
  proba_at probabilities i = Ok x -> nth_error probabilities i = Some x.
Proof.
  unfold proba_at. destruct (nth_error probabilities i); intro H; inversion H; reflexivity.
Qed.

Lemma classify_ok {R} (m : classifier) (features : list pyval)
  (k : prediction_body -> M R) (w w' : world) (r : R) :
  (prediction <- model_predict m features ;;
   probabilities <- model_predict_proba m features ;;
   p <- prediction_fields prediction probabilities ;;
   k p) w = (Ok r, w') ->
  exists p,
    classified m features p /\
    k p {| sensor_data := sensor_data w;
           calls := calls w ++ [Predict features; PredictProba features] |}
      = (Ok r, w').
Proof.
  unfold model_predict, model_predict_proba, prediction_fields. intro H.
  run_ok.
  repeat match goal with
  | H : risk_label _ = Ok _ |- _ => apply risk_label_ok in H
  | H : proba_at _ _ = Ok _ |- _ => apply proba_at_ok in H
  end.
  match type of H with k ?p _ = _ => exists p end.
  split.
  - match goal with Hp : clf_predict_proba _ _ = Ok ?l |- _ => exists l end.
    cbn [risk risk_code confidence_of low medium high recommendations].
    repeat split; assumption.
  - cbn [sensor_data calls] in H. rewrite <- app_assoc in H. exact H.
Qed.

Ltac wp_step :=
  cbv beta iota;
  lazymatch goal with
  | |- wp (bind _ _) _ _ => apply wp_bind
  | |- wp (lift _) _ _ => apply wp_lift
  | |- wp (ret _) _ _ => apply wp_ret
  | |- wp read_sensor _ _ => apply wp_read_sensor
  | |- wp (call _) _ _ => apply wp_call
  end.

(** Run the next statement [x = ...]; the goal left is the rest of the body
    when it returns [x], after the goal for the case it raises. *)
Tactic Notation "wp_next" ident(x) ident(H) :=
  repeat wp_step; cbv beta iota;
  lazymatch goal with
  | |- match ?r with Ok _ => _ | Raise _ => _ end =>
      destruct r as [x | ] eqn:H
  end.

Ltac logs_done :=
  cbn [sensor_data calls];
  repeat (apply logs_more; [ | cbn [classifier_on]; auto ]);
  first [ apply logs_nothing | apply logs_same ].

(** Whatever [predict_with_sensor] answers, every call it made to the
    classifier was on the vector assembled for the request. *)
Lemma predict_with_sensor_logs (req : request) (w : world) :
  logs (classifier_on (assembled req w)) w (snd (predict_with_sensor req w)).
Proof.
  unfold predict_with_sensor.
  destruct (method req); [ | apply logs_nothing ].
  destruct model as [m | ]; [ | apply logs_nothing ].
  apply wp_try_except.
  wp_next data Hj; [ | logs_done ].
  wp_next latitude Hlat; [ | logs_done ].
  wp_next longitude Hlon; [ | logs_done ].
  wp_next use_sensor Huse; [ | logs_done ].
  destruct (negb (py_truthy latitude) || negb (py_truthy longitude));
    [ wp_step; logs_done | ].
  unfold requests_get.
  wp_next meteo_data Hmeteo; [ | logs_done ].
  wp_next daily Hdaily; [ | logs_done ].
  do 3 wp_step. cbn [sensor_data].
  lazymatch goal with
  | |- wp _ ?Q ?w1 =>
      assert (Htail : forall chosen,
                chosen_max use_sensor (sensor_data w) daily (fst chosen) ->
                Q (Ok chosen) w1)
  end.
  { intros chosen Hchosen.
    wp_next t_min Hmin; [ | logs_done ].
    wp_next w_speed Hspeed; [ | logs_done ].
    wp_next w_gusts Hgusts; [ | logs_done ].
    wp_next precip Hprecip; [ | logs_done ].
    assert (Hfs : assembled req w [fst chosen; t_min; w_speed; w_gusts; precip]).
    { exists data, latitude, longitude, use_sensor, meteo_data, daily,
        (fst chosen), t_min, w_speed, w_gusts, precip.
      repeat (split; [assumption | ]). reflexivity. }
    unfold model_predict, model_predict_proba, prediction_fields.
    wp_next prediction Hprediction; [ | logs_done ].
    wp_next probabilities Hprobabilities; [ | logs_done ].
    wp_next label Hlabel; [ | logs_done ].
    wp_next p0 Hp0; [ | logs_done ].
    wp_next p1 Hp1; [ | logs_done ].
    wp_next p2 Hp2; [ | logs_done ].
    repeat wp_step. logs_done. }
  destruct (py_truthy use_sensor) eqn:Tuse;
    [ destruct (temperature (sensor_data w)) as [T | ] eqn:HT | ].
  - wp_step. apply Htail. left. split; [exact Tuse | ]. exists T. auto.
  - wp_next t_max Hmax; [ | logs_done ].
    wp_step. apply Htail. right. auto.
  - wp_next t_max Hmax; [ | logs_done ].
    wp_step. apply Htail. right. auto.
Qed.

(** What a successful answer of [predict] says about the run. *)
Lemma predict_ok (req : request) (w w' : world) (p : prediction_body) :
  predict req w = (Predicted p, w') ->
  exists m data f,
    model = Some m /\
    method req = POST /\
    get_json req = Ok data /\
    py_getitem data "temperature_2m_max" = Ok (temperature_max f) /\
    py_getitem data "temperature_2m_min" = Ok (temperature_min f) /\
    py_getitem data "wind_speed_10m_max" = Ok (wind_speed_max f) /\
    py_getitem data "wind_gusts_10m_max" = Ok (wind_gusts_max f) /\
    py_getitem data "precipitation_sum" = Ok (precipitation f) /\
    classified m (feature_vector f) p /\
    w' = {| sensor_data := sensor_data w;
            calls := calls w ++ [Predict (feature_vector f);
                                 PredictProba (feature_vector f)] |}.
Proof.
  unfold predict. intro H.
  destruct (method req) eqn:Hm; [ | discriminate H ].
  destruct model as [m | ] eqn:Hmodel; [ | discriminate H ].
  apply try_except_ok in H. destruct H as [H | (e & _ & He)]; [ | discriminate He ].
  apply bind_ok in H. destruct H as (data & w1 & Hdata & H).
  apply lift_ok in Hdata. destruct Hdata as [Hdata ->].
  apply bind_ok in H. destruct H as (v1 & w1 & H1 & H).
  apply lift_ok in H1. destruct H1 as [H1 ->].
  apply bind_ok in H. destruct H as (v2 & w1 & H2 & H).
  apply lift_ok in H2. destruct H2 as [H2 ->].
  apply bind_ok in H. destruct H as (v3 & w1 & H3 & H).
  apply lift_ok in H3. destruct H3 as [H3 ->].
  apply bind_ok in H. destruct H as (v4 & w1 & H4 & H).
  apply lift_ok in H4. destruct H4 as [H4 ->].
  apply bind_ok in H. destruct H as (v5 & w1 & H5 & H).
  apply lift_ok in H5. destruct H5 as [H5 ->].
  cbv zeta in H.
  apply classify_ok in H. destruct H as (p0 & Hc & H).
  apply ret_ok in H. destruct H as [Hp ->]. inversion Hp; subst p0.
  exists m, data,
    {| temperature_max := v1; temperature_min := v2; wind_speed_max := v3;
       wind_gusts_max := v4; precipitation := v5 |}.
  cbn [temperature_max temperature_min wind_speed_max wind_gusts_max
       precipitation feature_vector].
  repeat split; auto.
Qed.

(** What a successful answer of [predict_with_sensor] says about the run. *)
Lemma predict_with_sensor_ok (req : request) (w w' : world)
  (p : prediction_body) (i : sensor_info) :
  predict_with_sensor req w = (PredictedWithSensor p i, w') ->
  exists m data latitude longitude use_sensor meteo_data daily,
    model = Some m /\
    method req = POST /\
    get_json req = Ok data /\
    py_get data "latitude" PNone = Ok latitude /\
    py_get data "longitude" PNone = Ok longitude /\
    py_get data "use_sensor" (PBool false) = Ok use_sensor /\
    py_truthy latitude = true /\
    py_truthy longitude = true /\
    open_meteo latitude longitude = Ok meteo_data /\
    py_getitem meteo_data "daily" = Ok daily /\
    ((py_truthy use_sensor = true /\
      exists T,
        temperature (sensor_data w) = Some T /\
        temperature_max (features_used_of i) = PFloat T /\
        data_source i = "sensor")
     \/
     ((py_truthy use_sensor = false \/ temperature (sensor_data w) = None) /\
      daily_first daily "temperature_2m_max"
        = Ok (temperature_max (features_used_of i)) /\
      data_source i = "open-meteo")) /\
    daily_first daily "temperature_2m_min"
      = Ok (temperature_min (features_used_of i)) /\
    daily_first daily "wind_speed_10m_max"
      = Ok (wind_speed_max (features_used_of i)) /\
    daily_first daily "wind_gusts_10m_max"
      = Ok (wind_gusts_max (features_used_of i)) /\
    daily_first daily "precipitation_sum"
      = Ok (precipitation (features_used_of i)) /\
    classified m (feature_vector (features_used_of i)) p /\
    sensor_status i = status (sensor_data w) /\
    w' = {| sensor_data := sensor_data w;
            calls := calls w ++
                     [Forecast latitude longitude;
                      Predict (feature_vector (features_used_of i));
                      PredictProba (feature_vector (features_used_of i))] |}.
Proof.
  unfold predict_with_sensor. intro H.
  destruct (method req) eqn:Hm; [ | discriminate H ].
  destruct model as [m | ] eqn:Hmodel; [ | discriminate H ].
  apply try_except_ok in H. destruct H as [H | (e & _ & He)]; [ | discriminate He ].
  apply bind_ok in H. destruct H as (data & w1 & Hdata & H).
  apply lift_ok in Hdata. destruct Hdata as [Hdata ->].
  apply bind_ok in H. destruct H as (latitude & w1 & Hlat & H).
  apply lift_ok in Hlat. destruct Hlat as [Hlat ->].
  apply bind_ok in H. destruct H as (longitude & w1 & Hlon & H).
  apply lift_ok in Hlon. destruct Hlon as [Hlon ->].
  apply bind_ok in H. destruct H as (use_sensor & w1 & Huse & H).
  apply lift_ok in Huse. destruct Huse as [Huse ->].
  destruct (py_truthy latitude) eqn:Tlat;
    [ | apply ret_ok in H; destruct H as [H _]; discriminate H ].
  destruct (py_truthy longitude) eqn:Tlon;
    [ | apply ret_ok in H; destruct H as [H _]; discriminate H ].
  cbn [negb orb] in H.
  apply bind_ok in H. destruct H as (meteo_data & w1 & Hmeteo & H).
  unfold requests_get in Hmeteo.
  apply bind_ok in Hmeteo. destruct Hmeteo as (u & w2 & Hcall & Hmeteo).
  apply call_ok in Hcall. subst w2.
  apply lift_ok in Hmeteo. destruct Hmeteo as [Hmeteo ->].
  apply bind_ok in H. destruct H as (daily & w1 & Hdaily & H).
  apply lift_ok in Hdaily. destruct Hdaily as [Hdaily ->].
  apply bind_ok in H. destruct H as (s & w1 & Hs & H).
  apply read_sensor_ok in Hs. destruct Hs as [-> ->]. cbn [sensor_data] in H.
  apply bind_ok in H. destruct H as (chosen & w1 & Hchosen & H).
  cbv zeta in H.
  assert (Hsrc :
    w1 = {| sensor_data := sensor_data w;
            calls := calls w ++ [Forecast latitude longitude] |} /\
    ((py_truthy use_sensor = true /\
      exists T, temperature (sensor_data w) = Some T /\
                fst chosen = PFloat T /\ snd chosen = "sensor")
     \/
     ((py_truthy use_sensor = false \/ temperature (sensor_data w) = None) /\
      daily_first daily "temperature_2m_max" = Ok (fst chosen) /\
      snd chosen = "open-meteo"))).
  { destruct (py_truthy use_sensor) eqn:Tuse.
    - destruct (temperature (sensor_data w)) as [T | ] eqn:HT.
      + apply ret_ok in Hchosen. destruct Hchosen as [-> ->].
        split; [reflexivity | ]. left. split; [reflexivity | ].
        exists T. repeat split; reflexivity.
      + apply bind_ok in Hchosen. destruct Hchosen as (t & w2 & Ht & Hchosen).
        apply lift_ok in Ht. destruct Ht as [Ht ->].
        apply ret_ok in Hchosen. destruct Hchosen as [-> ->].
        split; [reflexivity | ]. right. repeat split; auto.
    - apply bind_ok in Hchosen. destruct Hchosen as (t & w2 & Ht & Hchosen).
      apply lift_ok in Ht. destruct Ht as [Ht ->].
      apply ret_ok in Hchosen. destruct Hchosen as [-> ->].
      split; [reflexivity | ]. right. repeat split; auto. }
  destruct Hsrc as [-> Hsrc].
  apply bind_ok in H. destruct H as (v2 & w1 & H2 & H).
  apply lift_ok in H2. destruct H2 as [H2 ->].
  apply bind_ok in H. destruct H as (v3 & w1 & H3 & H).
  apply lift_ok in H3. destruct H3 as [H3 ->].
  apply bind_ok in H. destruct H as (v4 & w1 & H4 & H).
  apply lift_ok in H4. destruct H4 as [H4 ->].
  apply bind_ok in H. destruct H as (v5 & w1 & H5 & H).
  apply lift_ok in H5. destruct H5 as [H5 ->].
  cbv zeta in H.
  apply classify_ok in H. destruct H as (p0 & Hc & H).
  apply bind_ok in H. destruct H as (s' & w1 & Hs' & H).
  apply read_sensor_ok in Hs'. destruct Hs' as [-> ->].
  apply ret_ok in H. destruct H as [Hp ->]. inversion Hp; subst p0 i.
  cbn [sensor_data calls features_used_of data_source sensor_status
       temperature_max temperature_min wind_speed_max wind_gusts_max
       precipitation feature_vector].
  exists m, data, latitude, longitude, use_sensor, meteo_data, daily.
  rewrite <- app_assoc. cbn [app].
  repeat match goal with |- _ /\ _ => split end; auto.
Qed.

(* ================================================================== *)
(** * Properties of the prediction handlers *)

(** C2 -- Sensor substitution.  In coordinate mode, when the request has
    [use_sensor = true] and the sensor state holds a temperature [T]: every
    call the handler makes to the classifier, whatever it answers in the
    end, is on a feature vector whose first element, the maximum
    temperature, is [T]; and a prediction response reports
    [temperature_max = T] and [data_source = "sensor"].  Nothing is asked of
    the sensor's status or timestamp: a stale reading is used all the
    same. *)
Theorem C2_sensor_substitution
  (req : request) (data : list (string * pyval)) (T : float) (w : world) :
  get_json req = Ok (PDict data) ->
  lookup "use_sensor" data = Some (PBool true) ->
  temperature (sensor_data w) = Some T ->
  logs (classifier_on (fun features => hd_error features = Some (PFloat T)))
       w (snd (predict_with_sensor req w)) /\
  (forall p i w',
     predict_with_sensor req w = (PredictedWithSensor p i, w') ->
     temperature_max (features_used_of i) = PFloat T /\
     data_source i = "sensor" /\
     exists latitude longitude rest,
       calls w' = calls w ++ [Forecast latitude longitude;
                              Predict (PFloat T :: rest);
                              PredictProba (PFloat T :: rest)]).
Proof.
  intros Hj Hu HT. split.
  - apply (logs_weaken (classifier_on (assembled req w)));
      [ | apply predict_with_sensor_logs ].
    assert (Hhead : forall features,
              assembled req w features -> hd_error features = Some (PFloat T)).
    { intros features
        (data' & lat & lon & use & meteo & daily & v1 & v2 & v3 & v4 & v5
         & Hj' & _ & _ & Huse & _ & _ & Hsrc & _ & _ & _ & _ & ->).
      rewrite Hj in Hj'. inversion Hj'; subst data'.
      cbn [py_get] in Huse. rewrite Hu in Huse. inversion Huse; subst use.
      destruct Hsrc as [(_ & T' & HT' & ->) | ([Hf | Hn] & _)].
      - rewrite HT in HT'. inversion HT'; subst T'. reflexivity.
      - discriminate Hf.
      - rewrite HT in Hn. discriminate Hn. }
    intros [lat lon | features | features]; cbn [classifier_on]; auto.
  - intros p i w' H.
    apply predict_with_sensor_ok in H.
    destruct H as (m & data' & lat & lon & use & meteo & daily & _ & _ & Hj' & _ & _
                   & Huse & _ & _ & _ & _ & Hsrc & _ & _ & _ & _ & _ & _ & ->).
    rewrite Hj in Hj'. inversion Hj'; subst data'.
    cbn [py_get] in Huse. rewrite Hu in Huse. inversion Huse; subst use.
    destruct Hsrc as [(_ & T' & HT' & Hmax & Hds) | ([Hf | Hn] & _)].
    + rewrite HT in HT'. inversion HT'; subst T'.
      split; [exact Hmax | ]. split; [exact Hds | ].
      exists lat, lon, (tl (feature_vector (features_used_of i))).
      cbn [calls]. unfold feature_vector. rewrite Hmax. reflexivity.
    + discriminate Hf.
    + rewrite HT in Hn. discriminate Hn.
Qed.

(** C3, as the code has it -- Forecast fallback.  In coordinate mode, when
    the request has [use_sensor = false] or no [use_sensor] field, or the
    sensor state holds no temperature (no ingest was accepted): every call
    the handler makes to the classifier, whatever it answers in the end, is
    on a feature vector whose first element is the forecast's
    [daily['temperature_2m_max'][0]]; and a prediction response reports that
    value as [temperature_max] and reports [data_source = "open-meteo"]. *)
Theorem C3_forecast_fallback
  (req : request) (data : list (string * pyval)) (w : world) :
  get_json req = Ok (PDict data) ->
  lookup "use_sensor" data = Some (PBool false) \/
  lookup "use_sensor" data = None \/
  temperature (sensor_data w) = None ->
  logs (classifier_on
          (fun features =>
             exists latitude longitude meteo_data daily t_max,
               open_meteo latitude longitude = Ok meteo_data /\
               py_getitem meteo_data "daily" = Ok daily /\
               daily_first daily "temperature_2m_max" = Ok t_max /\
               hd_error features = Some t_max))
       w (snd (predict_with_sensor req w)) /\
  (forall p i w',
     predict_with_sensor req w = (PredictedWithSensor p i, w') ->
     data_source i = "open-meteo" /\
     exists latitude longitude meteo_data daily rest,
       open_meteo latitude longitude = Ok meteo_data /\
       py_getitem meteo_data "daily" = Ok daily /\
       daily_first daily "temperature_2m_max"
         = Ok (temperature_max (features_used_of i)) /\
       calls w' = calls w ++
         [Forecast latitude longitude;
          Predict (temperature_max (features_used_of i) :: rest);
          PredictProba (temperature_max (features_used_of i) :: rest)]).
Proof.
  intros Hj Hcase.
  assert (Hforecast : forall use daily t_max,
            py_get (PDict data) "use_sensor" (PBool false) = Ok use ->
            chosen_max use (sensor_data w) daily t_max ->
            daily_first daily "temperature_2m_max" = Ok t_max).
  { intros use daily t_max Huse [(Ht & T & HT & _) | (_ & Hmax)]; [ | exact Hmax ].
    cbn [py_get] in Huse.
    destruct Hcase as [Hf | [Hn | Hn]].
    - rewrite Hf in Huse. inversion Huse; subst use. discriminate Ht.
    - rewrite Hn in Huse. inversion Huse; subst use. discriminate Ht.
    - rewrite HT in Hn. discriminate Hn. }
  split.
  - apply (logs_weaken (classifier_on (assembled req w)));
      [ | apply predict_with_sensor_logs ].
    intros [lat lon | features | features]; cbn [classifier_on]; auto;
      intros (data' & lat & lon & use & meteo & daily & v1 & v2 & v3 & v4 & v5
              & Hj' & _ & _ & Huse & Hmeteo & Hdaily & Hsrc & _ & _ & _ & _ & ->);
      rewrite Hj in Hj'; inversion Hj'; subst data';
      exists lat, lon, meteo, daily, v1;
      repeat split; try assumption;
      apply (Hforecast use daily v1 Huse Hsrc).
  - intros p i w' H.
    apply predict_with_sensor_ok in H.
    destruct H as (m & data' & lat & lon & use & meteo & daily & _ & _ & Hj' & _ & _
                   & Huse & _ & _ & Hmeteo & Hdaily & Hsrc & _ & _ & _ & _ & _ & _ & ->).
    rewrite Hj in Hj'. inversion Hj'; subst data'.
    assert (Hfallback :
      daily_first daily "temperature_2m_max"
        = Ok (temperature_max (features_used_of i)) /\
      data_source i = "open-meteo").
    { destruct Hsrc as [(Ht & T & HT & Hmax & _) | (_ & Hmax & Hds)];
        [ | split; assumption ].
      exfalso. cbn [py_get] in Huse.
      destruct Hcase as [Hf | [Hn | Hn]].
      - rewrite Hf in Huse. inversion Huse; subst use. discriminate Ht.
      - rewrite Hn in Huse. inversion Huse; subst use. discriminate Ht.
      - rewrite HT in Hn. discriminate Hn. }
    destruct Hfallback as [Hmax Hds].
    split; [exact Hds | ].
    exists lat, lon, meteo, daily, (tl (feature_vector (features_used_of i))).
    repeat split; assumption.
Qed.

(** C4 -- Feature order.  A successful prediction, in direct-feature mode
    and in coordinate mode, called the classifier (both [predict] and
    [predict_proba]) on the five-element vector [temperature_max,
    temperature_min, wind_speed_max, wind_gusts_max, precipitation_sum], in
    that order: in direct mode the request's fields of those names, in
    coordinate mode the chosen maximum temperature followed by the first
    entries of the forecast's four other daily columns. *)
Theorem C4_feature_order :
  (forall req w w' p,
     predict req w = (Predicted p, w') ->
     exists data t_max t_min w_speed w_gusts precip,
       get_json req = Ok data /\
       py_getitem data "temperature_2m_max" = Ok t_max /\
       py_getitem data "temperature_2m_min" = Ok t_min /\
       py_getitem data "wind_speed_10m_max" = Ok w_speed /\
       py_getitem data "wind_gusts_10m_max" = Ok w_gusts /\
       py_getitem data "precipitation_sum" = Ok precip /\
       calls w' = calls w ++
         [Predict [t_max; t_min; w_speed; w_gusts; precip];
          PredictProba [t_max; t_min; w_speed; w_gusts; precip]])
  /\
  (forall req w w' p i,
     predict_with_sensor req w = (PredictedWithSensor p i, w') ->
     exists latitude longitude meteo_data daily t_max t_min w_speed w_gusts precip,
       open_meteo latitude longitude = Ok meteo_data /\
       py_getitem meteo_data "daily" = Ok daily /\
       features_used_of i =
         {| temperature_max := t_max; temperature_min := t_min;
            wind_speed_max := w_speed; wind_gusts_max := w_gusts;
            precipitation := precip |} /\
       ((exists T, temperature (sensor_data w) = Some T /\ t_max = PFloat T) \/
        daily_first daily "temperature_2m_max" = Ok t_max) /\
       daily_first daily "temperature_2m_min" = Ok t_min /\
       daily_first daily "wind_speed_10m_max" = Ok w_speed /\
       daily_first daily "wind_gusts_10m_max" = Ok w_gusts /\
       daily_first daily "precipitation_sum" = Ok precip /\
       calls w' = calls w ++
         [Forecast latitude longitude;
          Predict [t_max; t_min; w_speed; w_gusts; precip];
          PredictProba [t_max; t_min; w_speed; w_gusts; precip]]).
Proof.
  split.
  - intros req w w' p H. apply predict_ok in H.
    destruct H as (m & data & f & _ & _ & Hj & H1 & H2 & H3 & H4 & H5 & _ & ->).
    exists data, (temperature_max f), (temperature_min f), (wind_speed_max f),
      (wind_gusts_max f), (precipitation f).
    repeat split; assumption || reflexivity.
  - intros req w w' p i H. apply predict_with_sensor_ok in H.
    destruct H as (m & data & lat & lon & use & meteo & daily & _ & _ & _ & _ & _
                   & _ & _ & _ & Hmeteo & Hdaily & Hsrc & H2 & H3 & H4 & H5 & _ & _ & ->).
    destruct (features_used_of i) as [v1 v2 v3 v4 v5] eqn:Hf.
    cbn [temperature_max temperature_min wind_speed_max wind_gusts_max
         precipitation feature_vector] in *.
    exists lat, lon, meteo, daily, v1, v2, v3, v4, v5.
    repeat match goal with |- _ /\ _ => split end; try assumption; try reflexivity.
    destruct Hsrc as [(_ & T & HT & Hmax & _) | (_ & Hmax & _)].
    + left. exists T. split; assumption.
    + right. exact Hmax.
Qed.

(** C9 -- Consistency of a prediction response, in both modes: [risk] is
    the label [RISK_LABELS] gives for [risk_code], [risk_code] is the
    classifier's prediction on the feature vector passed to it, the
    confidence entries [low], [medium], [high] are the classifier's
    probabilities at indices 0, 1, 2 for that vector, and [recommendations]
    is [get_recommendations] of that same label. *)
Theorem C9_response_consistency :
  (forall req w w' p,
     predict req w = (Predicted p, w') ->
     exists m features probabilities,
       model = Some m /\
       calls w' = calls w ++ [Predict features; PredictProba features] /\
       clf_predict m features = Ok (risk_code p) /\
       clf_predict_proba m features = Ok probabilities /\
       RISK_LABELS (risk_code p) = Some (risk p) /\
       nth_error probabilities 0 = Some (low (confidence_of p)) /\
       nth_error probabilities 1 = Some (medium (confidence_of p)) /\
       nth_error probabilities 2 = Some (high (confidence_of p)) /\
       recommendations p = get_recommendations (risk p))
  /\
  (forall req w w' p i,
     predict_with_sensor req w = (PredictedWithSensor p i, w') ->
     exists m latitude longitude features probabilities,
       model = Some m /\
       calls w' = calls w ++
         [Forecast latitude longitude; Predict features; PredictProba features] /\
       clf_predict m features = Ok (risk_code p) /\
       clf_predict_proba m features = Ok probabilities /\
       RISK_LABELS (risk_code p) = Some (risk p) /\
       nth_error probabilities 0 = Some (low (confidence_of p)) /\
       nth_error probabilities 1 = Some (medium (confidence_of p)) /\
       nth_error probabilities 2 = Some (high (confidence_of p)) /\
       recommendations p = get_recommendations (risk p)).
Proof.
  split.
  - intros req w w' p H. apply predict_ok in H.
    destruct H as (m & data & f & Hm & _ & _ & _ & _ & _ & _ & _ & Hc & ->).
    destruct Hc as (probs & Hc).
    exists m, (feature_vector f), probs.
    split; [exact Hm | ]. split; [reflexivity | exact Hc].
  - intros req w w' p i H. apply predict_with_sensor_ok in H.
    destruct H as (m & data & lat & lon & use & meteo & daily & Hm & _ & _ & _ & _
                   & _ & _ & _ & _ & _ & _ & _ & _ & _ & _ & Hc & _ & ->).
    destruct Hc as (probs & Hc).
    exists m, lat, lon, (feature_vector (features_used_of i)), probs.
    split; [exact Hm | ]. split; [reflexivity | exact Hc].
Qed.

(** C7 -- Model unavailable.  When the model failed to load ([model] is
    [None]), a prediction request in either mode is answered with the
    server error 500 ['Model not loaded'] and the world is left as it was:
    the request body is not read, no forecast is fetched and the classifier
    is not called. *)
Theorem C7_model_unavailable (req : request) (w : world) :
  model = None ->
  method req = POST ->
  predict req w = (Error 500 "Model not loaded", w) /\
  predict_with_sensor req w = (Error 500 "Model not loaded", w).
Proof.
  intros Hmodel Hm.
  unfold predict, predict_with_sensor. rewrite Hm, Hmodel.
  split; reflexivity.
Qed.

Lemma first_missing_head (data : list (string * pyval)) :
  first_missing data = hd_error (missing_fields data).
Proof.
  unfold first_missing, missing_fields.
  induction feature_fields as [ | k ks IH ]; [reflexivity | ].
  cbn [find filter]. destruct (absent data k); [reflexivity | exact IH].
Qed.

(** C5, as the code has it -- Direct-feature mode.  A request whose JSON
    object lacks at least one of the five feature fields gets an error
    response whose message is the name of the first missing field (in
    feature order) between single quotes, as Python prints a [KeyError], and
    the world is left as it was: the classifier is not called.  When all
    five fields are present, the classifier is called on their values,
    unchanged and in feature order. *)
Theorem C5_direct_mode_fields
  (m : classifier) (req : request) (data : list (string * pyval)) (w : world) :
  model = Some m ->
  method req = POST ->
  get_json req = Ok (PDict data) ->
  (forall k others,
     missing_fields data = k :: others ->
     error_message (fst (predict req w)) = Some (py_repr_str k) /\
     snd (predict req w) = w)
  /\
  (missing_fields data = [] ->
   exists t_max t_min w_speed w_gusts precip rest,
     lookup "temperature_2m_max" data = Some t_max /\
     lookup "temperature_2m_min" data = Some t_min /\
     lookup "wind_speed_10m_max" data = Some w_speed /\
     lookup "wind_gusts_10m_max" data = Some w_gusts /\
     lookup "precipitation_sum" data = Some precip /\
     calls (snd (predict req w)) =
       calls w ++ Predict [t_max; t_min; w_speed; w_gusts; precip] :: rest).
Proof.
  intros Hmodel Hm Hj.
  assert (Hfirst :
    (forall k, first_missing data = Some k ->
       error_message (fst (predict req w)) = Some (py_repr_str k) /\
       snd (predict req w) = w) /\
    (first_missing data = None ->
     exists t_max t_min w_speed w_gusts precip rest,
       lookup "temperature_2m_max" data = Some t_max /\
       lookup "temperature_2m_min" data = Some t_min /\
       lookup "wind_speed_10m_max" data = Some w_speed /\
       lookup "wind_gusts_10m_max" data = Some w_gusts /\
       lookup "precipitation_sum" data = Some precip /\
       calls (snd (predict req w)) =
         calls w ++ Predict [t_max; t_min; w_speed; w_gusts; precip] :: rest)).
  { unfold predict. rewrite Hm, Hmodel.
    unfold try_except, bind, lift, py_getitem. rewrite Hj.
    unfold first_missing, feature_fields, absent. cbn [find].
    destruct (lookup "temperature_2m_max" data) as [v1 | ];
      [ | split; [intros k Hk; inversion Hk; split; reflexivity | discriminate] ].
    destruct (lookup "temperature_2m_min" data) as [v2 | ];
      [ | split; [intros k Hk; inversion Hk; split; reflexivity | discriminate] ].
    destruct (lookup "wind_speed_10m_max" data) as [v3 | ];
      [ | split; [intros k Hk; inversion Hk; split; reflexivity | discriminate] ].
    destruct (lookup "wind_gusts_10m_max" data) as [v4 | ];
      [ | split; [intros k Hk; inversion Hk; split; reflexivity | discriminate] ].
    destruct (lookup "precipitation_sum" data) as [v5 | ];
      [ | split; [intros k Hk; inversion Hk; split; reflexivity | discriminate] ].
    split; [discriminate | intros _].
    exists v1, v2, v3, v4, v5.
    unfold model_predict, model_predict_proba, prediction_fields, bind, call,
      lift, ret.
    cbn [sensor_data calls].
    destruct (clf_predict m [v1; v2; v3; v4; v5]) as [code | e].
    - exists [PredictProba [v1; v2; v3; v4; v5]].
      repeat (split; [reflexivity | ]).
      destruct (clf_predict_proba m [v1; v2; v3; v4; v5]) as [probs | e];
        [ | cbn; rewrite <- app_assoc; reflexivity ].
      destruct (risk_label code); [ | cbn; rewrite <- app_assoc; reflexivity ].
      destruct (proba_at probs 0); [ | cbn; rewrite <- app_assoc; reflexivity ].
      destruct (proba_at probs 1); [ | cbn; rewrite <- app_assoc; reflexivity ].
      destruct (proba_at probs 2); cbn; rewrite <- app_assoc; reflexivity.
    - exists []. repeat (split; [reflexivity | ]). reflexivity. }
  destruct Hfirst as [Hsome Hnone]. split.
  - intros k others Hk. apply Hsome.
    rewrite first_missing_head, Hk. reflexivity.
  - intro Hk. apply Hnone. rewrite first_missing_head, Hk. reflexivity.
Qed.

(** C8 -- The recommendation table.  [get_recommendations] returns, for
    the label Low, Medium and High, the three, four and five advisory
    strings of section 6 in order, and the empty list for any other label;
    being a function of the label alone, equal labels give equal lists. *)
Theorem C8_recommendations :
  get_recommendations "Low" =
    [ "Conditions are safe for outdoor activities";
      "Stay hydrated with regular water intake";
      "Normal precautions are sufficient" ] /\
  get_recommendations "Medium" =
    [ "Stay hydrated - drink water every 30-45 minutes";
      "Limit outdoor activities during peak afternoon hours";
      "Wear light, loose-fitting clothing";
      "Take frequent breaks in shaded areas" ] /\
  get_recommendations "High" =
    [ "Stay indoors as much as possible";
      "Drink water every 20-30 minutes";
      "Avoid ALL outdoor activities between 11 AM - 5 PM";
      "Seek air-conditioned environments";
      "Know heatstroke symptoms: confusion, dizziness, nausea" ] /\
  List.length (get_recommendations "Low") = 3%nat /\
  List.length (get_recommendations "Medium") = 4%nat /\
  List.length (get_recommendations "High") = 5%nat /\
  (forall label,
     label <> "Low" -> label <> "Medium" -> label <> "High" ->
     get_recommendations label = []) /\
  (forall label label',
     label = label' -> get_recommendations label = get_recommendations label').
Proof.
  repeat (split; [reflexivity | ]).
  split.
  - intros label HL HM HH. unfold get_recommendations.
    apply String.eqb_neq in HL, HM, HH. rewrite HL, HM, HH. reflexivity.
  - intros label label' ->. reflexivity.
Qed.

(* ================================================================== *)
(** * Further properties of the handlers *)

(** ** Ingest: what is refused, and what a refusal leaves *)

(** [null] counts as no temperature: [data.get('temperature')] is [None]
    for a missing field and for a field that holds [null] alike, and either
    way the request is refused with 400 and changes nothing. *)
Theorem ingest_null_temperature
  (now : Z) (req : request) (data : list (string * pyval)) (w : world) :
  method req = POST ->
  get_json req = Ok (PDict data) ->
  lookup "temperature" data = Some PNone ->
  receive_sensor_data now req w = (Error 400 "No temperature data", w).
Proof.
  intros Hm Hj Hl.
  unfold receive_sensor_data, try_except, bind, lift, py_get.
  rewrite Hm, Hj, Hl. reflexivity.
Qed.

(** A temperature that [float()] refuses (a list, an object, text that is
    no number, an integer past the largest float) is answered with 500 and
    the message of the exception, and the reading is not touched. *)
Theorem ingest_unconvertible_temperature
  (now : Z) (req : request) (data : list (string * pyval)) (temp : pyval)
  (e : exn) (w : world) :
  method req = POST ->
  get_json req = Ok (PDict data) ->
  lookup "temperature" data = Some temp ->
  py_float temp = Raise e ->
  temp <> PNone ->
  receive_sensor_data now req w = (Error 500 (str_exn e), w).
Proof.
  intros Hm Hj Hl Hf Hnone.
  unfold receive_sensor_data, try_except, bind, lift, py_get.
  rewrite Hm, Hj, Hl.
  destruct temp; try (rewrite Hf; reflexivity).
  contradiction Hnone. reflexivity.
Qed.

(** A body that is valid JSON but no object (a list, a number, a string,
    [null]) is answered with 500: [data.get] raises [AttributeError].  The
    reading is not touched. *)
Theorem ingest_body_not_an_object
  (now : Z) (req : request) (body : pyval) (w : world) :
  method req = POST ->
  get_json req = Ok body ->
  (forall data, body <> PDict data) ->
  receive_sensor_data now req w =
    (Error 500 ("'" ++ py_type_name body ++ "' object has no attribute 'get'"), w).
Proof.
  intros Hm Hj Hbody.
  unfold receive_sensor_data, try_except, bind, lift, py_get.
  rewrite Hm, Hj.
  destruct body; try reflexivity.
  contradiction (Hbody d). reflexivity.
Qed.

(** All or nothing: every ingest request either is accepted (answer 200,
    the reading replaced by the converted temperature, the current time and
    [connected]) or leaves the world exactly as it was, with answer 204
    (preflight), 400 or 500. *)
Theorem ingest_all_or_nothing (now : Z) (req : request) (w : world) :
  (exists temp T,
     py_float temp = Ok T /\
     receive_sensor_data now req w =
       (Received temp now,
        {| sensor_data :=
             {| temperature := Some T; timestamp := Some now;
                status := connected |};
           calls := calls w |}))
  \/
  (snd (receive_sensor_data now req w) = w /\
   (fst (receive_sensor_data now req w) = Preflight \/
    fst (receive_sensor_data now req w) = Error 400 "No temperature data" \/
    exists e, fst (receive_sensor_data now req w) = Error 500 (str_exn e))).
Proof.
  unfold receive_sensor_data.
  destruct (method req).
  - unfold try_except, bind, lift.
    destruct (get_json req) as [data | e];
      [ | right; split; [reflexivity | right; right; exists e; reflexivity] ].
    destruct (py_get data "temperature" PNone) as [temp | e];
      [ | right; split; [reflexivity | right; right; exists e; reflexivity] ].
    destruct (is_none temp);
      [ right; split; [reflexivity | right; left; reflexivity] | ].
    destruct (py_float temp) as [T | e] eqn:HT;
      [ | right; split; [reflexivity | right; right; exists e; reflexivity] ].
    left. exists temp, T. split; [exact HT | reflexivity].
  - right. split; [reflexivity | left; reflexivity].
Qed.

(** ** The sensor between ingests *)

Definition is_read (o : operation) : bool :=
  match o with
  | GetSensorData _ => true
  | _ => false
  end.

Definition no_read (os : list operation) : Prop :=
  Forall (fun o => is_read o = false) os.

Lemma refreshed_twice (t1 t2 : Z) (s : sensor) :
  t1 <= t2 -> refreshed t2 (refreshed t1 s) = refreshed t2 s.
Proof.
  intro Hle.
  destruct s as [T [ts | ] st]; unfold refreshed;
    cbn [timestamp temperature status]; [ | reflexivity ].
  destruct (stale_after <? t1 - ts) eqn:H1; cbn [timestamp temperature status].
  - apply Z.ltb_lt in H1.
    assert (H2 : (stale_after <? t2 - ts) = true) by (apply Z.ltb_lt; lia).
    rewrite H2. reflexivity.
  - reflexivity.
Qed.

(** Reads compose: when the clock does not run backwards, a sensor read
    answers the same whether or not an earlier read came before it; in
    particular a read repeated at the same instant answers the same. *)
Theorem reads_compose (t1 t2 : Z) (w : world) :
  t1 <= t2 ->
  fst (get_sensor_data t2 (snd (get_sensor_data t1 w)))
    = fst (get_sensor_data t2 w) /\
  sensor_data (snd (get_sensor_data t2 (snd (get_sensor_data t1 w))))
    = sensor_data (snd (get_sensor_data t2 w)).
Proof.
  intro Hle.
  destruct (get_sensor_data_refreshed t2 (snd (get_sensor_data t1 w)))
    as (-> & -> & _).
  destruct (get_sensor_data_refreshed t2 w) as (-> & -> & _).
  destruct (get_sensor_data_refreshed t1 w) as (_ & -> & _).
  rewrite (refreshed_twice t1 t2 _ Hle). split; reflexivity.
Qed.

(** Once a read has found the reading stale, the sensor stays
    [disconnected] until the next ingest, whatever requests come and
    whatever the clock says afterwards (a clock set back does not revive
    the reading). *)
Theorem disconnected_until_ingest (os : list operation) :
  forall w,
    no_ingest os ->
    status (sensor_data w) = disconnected ->
    status (sensor_data (serve os w)) = disconnected.
Proof.
  induction os as [ | o os IH ]; intros w Hno Hd; [exact Hd | ].
  inversion Hno as [ | ? ? Ho Hos ]; subst. cbn [serve].
  apply IH; [exact Hos | ].
  destruct (handle_frame o w Ho) as (_ & _ & [Hsame | (Hdis & _)]).
  - rewrite Hsame. exact Hd.
  - exact Hdis.
Qed.

Lemma serve_keeps_sensor (os : list operation) :
  forall w,
    no_ingest os -> no_read os ->
    sensor_data (serve os w) = sensor_data w.
Proof.
  induction os as [ | o os IH ]; intros w Hno Hnr; [reflexivity | ].
  inversion Hno as [ | ? ? Ho Hos ]; subst.
  inversion Hnr as [ | ? ? Hr Hrs ]; subst. cbn [serve].
  rewrite (IH _ Hos Hrs).
  destruct o as [ | now req | now | req | req ]; cbn [handle];
    try discriminate Ho; try discriminate Hr.
  - apply health_check_keeps_sensor.
  - apply predict_with_sensor_keeps_sensor.
  - apply predict_keeps_sensor.
Qed.

(** Only an ingest and a sensor read write [latest_sensor_data]: health
    checks and predictions, whatever they answer, leave it as it is. *)
Theorem sensor_written_by_ingest_and_read (os : list operation) (w : world) :
  no_ingest os -> no_read os ->
  sensor_data (serve os w) = sensor_data w.
Proof. apply serve_keeps_sensor. Qed.

(** The health check and a coordinate prediction report the stored status
    without looking at the clock: after requests that are neither ingests
    nor sensor reads they report the status the sensor had before them, so
    a reading stays reported as connected, however old, until a sensor read
    finds it stale. *)
Theorem status_reported_as_stored (os : list operation) (w : world) :
  no_ingest os -> no_read os ->
  fst (health_check (serve os w))
    = Health (match model with Some _ => true | None => false end)
             (status (sensor_data w)) /\
  (forall req p i w',
     predict_with_sensor req (serve os w) = (PredictedWithSensor p i, w') ->
     sensor_status i = status (sensor_data w)).
Proof.
  intros Hno Hnr.
  pose proof (serve_keeps_sensor os w Hno Hnr) as Hsame.
  split.
  - unfold health_check, unguarded, bind, read_sensor, ret.
    cbn [fst]. rewrite Hsame. reflexivity.
  - intros req p i w' H. apply predict_with_sensor_ok in H.
    destruct H as (m & data & lat & lon & use & meteo & daily & H).
    destruct H as (_ & _ & _ & _ & _ & _ & _ & _ & _ & _ & _ & _ & _ & _ & _ & _
                   & Hst & _).
    rewrite Hst, Hsame. reflexivity.
Qed.

(** Before any ingest the sensor reads as empty: whatever requests came
    and whatever the time, the store holds no temperature, no timestamp and
    [disconnected]. *)
Theorem sensor_empty_before_ingest (now : Z) (os : list operation) (w : world) :
  no_ingest os ->
  sensor_data w = latest_sensor_data ->
  fst (get_sensor_data now (serve os w)) = SensorData latest_sensor_data.
Proof.
  intros Hno Hw.
  assert (Hempty : sensor_data (serve os w) = latest_sensor_data).
  { revert w Hw. induction os as [ | o os IH ]; intros w Hw; [exact Hw | ].
    inversion Hno as [ | ? ? Ho Hos ]; subst. cbn [serve].
    apply (IH Hos).
    destruct (handle_frame o w Ho) as (HT & Ht & Hst).
    rewrite Hw in HT, Ht, Hst. cbn in HT, Ht, Hst.
    destruct (sensor_data (snd (handle o w))) as [T ts st]. cbn in *. subst.
    destruct Hst as [-> | (-> & _)]; reflexivity. }
  destruct (get_sensor_data_refreshed now (serve os w)) as (-> & _).
  rewrite Hempty. reflexivity.
Qed.

(** ** Stepping through a handler: the answer and the world *)

Lemma wp_try_except_response (body : M response)
  (Q : response -> world -> Prop) (w : world) :
  wp body (fun r w' =>
             Q (match r with
                | Ok x => x
                | Raise e => Error 500 (str_exn e)
                end) w') w ->
  Q (fst (try_except body w)) (snd (try_except body w)).
Proof.
  unfold wp, try_except. destruct (body w) as [[r | e] w1]; auto.
Qed.

Lemma answer_and_world (x : response * world) (r : response) (w : world) :
  fst x = r /\ snd x = w -> x = (r, w).
Proof. destruct x as [r0 w0]. cbn. intros [-> ->]. reflexivity. Qed.

(** Run the next statement, whose outcome the hypothesis [H] gives. *)
Tactic Notation "wp_with" constr(H) :=
  repeat wp_step; cbv beta iota; rewrite H; cbv beta iota.

(** ** Coordinate mode: what must be there, and what need not *)

(** The value [data.get(k)] gives for an object. *)
Definition field (data : list (string * pyval)) (k : string) : pyval :=
  match lookup k data with
  | Some v => v
  | None => PNone
  end.

(** A coordinate request whose latitude or longitude is missing, [null] or
    otherwise falsy (the number 0 included: the equator and the prime
    meridian are refused) is answered with 400 before anything is fetched:
    the world is unchanged. *)
Theorem coordinates_required
  (m : classifier) (req : request) (data : list (string * pyval)) (w : world) :
  model = Some m ->
  method req = POST ->
  get_json req = Ok (PDict data) ->
  py_truthy (field data "latitude") = false \/
  py_truthy (field data "longitude") = false ->
  predict_with_sensor req w = (Error 400 "Latitude and longitude required", w).
Proof.
  intros Hmodel Hm Hj Hfalsy.
  unfold predict_with_sensor. rewrite Hm, Hmodel.
  unfold try_except, bind, lift, py_get, field in *. rewrite Hj.
  destruct (lookup "latitude" data) as [lat | ];
    destruct (lookup "longitude" data) as [lon | ];
    destruct (lookup "use_sensor" data) as [use | ];
    destruct Hfalsy as [H | H]; cbn [py_truthy] in *; rewrite ?H; cbn;
    try reflexivity;
    destruct (py_truthy lat); reflexivity.
Qed.

(** The forecast cannot be used: the call raises, or its answer has no
    ['daily'], or one of the four daily columns that are always read is
    missing or empty. *)
Definition forecast_unusable (latitude longitude : pyval) : Prop :=
  (exists e, open_meteo latitude longitude = Raise e)
  \/
  (exists meteo_data e,
     open_meteo latitude longitude = Ok meteo_data /\
     py_getitem meteo_data "daily" = Raise e)
  \/
  (exists meteo_data daily name e,
     open_meteo latitude longitude = Ok meteo_data /\
     py_getitem meteo_data "daily" = Ok daily /\
     In name [ "temperature_2m_min"; "wind_speed_10m_max";
               "wind_gusts_10m_max"; "precipitation_sum" ] /\
     daily_first daily name = Raise e).

(** When the forecast cannot be used, a coordinate request is answered with
    500; the log shows the one forecast call and nothing else: the call is
    not retried and the classifier is not called, with or without a sensor
    reading. *)
Theorem forecast_failure
  (m : classifier) (req : request) (data latitude longitude : pyval) (w : world) :
  model = Some m ->
  method req = POST ->
  get_json req = Ok data ->
  py_get data "latitude" PNone = Ok latitude ->
  py_get data "longitude" PNone = Ok longitude ->
  py_truthy latitude = true ->
  py_truthy longitude = true ->
  forecast_unusable latitude longitude ->
  exists message,
    predict_with_sensor req w =
      (Error 500 message,
       {| sensor_data := sensor_data w;
          calls := calls w ++ [Forecast latitude longitude] |}).
Proof.
  intros Hmodel Hm Hj Hlat Hlon Tlat Tlon Hbad.
  assert (Huse : exists use, py_get data "use_sensor" (PBool false) = Ok use).
  { destruct data; try discriminate Hlat. cbn [py_get].
    destruct (lookup "use_sensor" d); eexists; reflexivity. }
  destruct Huse as (use & Huse).
  cut (exists message,
         fst (predict_with_sensor req w) = Error 500 message /\
         snd (predict_with_sensor req w) =
           {| sensor_data := sensor_data w;
              calls := calls w ++ [Forecast latitude longitude] |}).
  { intros (message & H). exists message. apply answer_and_world. exact H. }
  unfold predict_with_sensor. rewrite Hm, Hmodel.
  apply (wp_try_except_response _
           (fun r w' =>
              exists message,
                r = Error 500 message /\
                w' = {| sensor_data := sensor_data w;
                        calls := calls w ++ [Forecast latitude longitude] |})).
  wp_with Hj. wp_with Hlat. wp_with Hlon. wp_with Huse.
  rewrite Tlat, Tlon. cbn [negb orb]. unfold requests_get.
  destruct Hbad as [(e & He) | [(meteo & e & Hmeteo & He)
                               | (meteo & daily & name & e & Hmeteo & Hdaily & Hname & He)]].
  - wp_with He. eexists. split; reflexivity.
  - wp_with Hmeteo. wp_with He. eexists. split; reflexivity.
  - wp_with Hmeteo. wp_with Hdaily. do 3 wp_step. cbn [sensor_data].
    lazymatch goal with
    | |- wp _ ?Q ?w1 => assert (Hrest : forall chosen, Q (Ok chosen) w1)
    end.
    { intros chosen.
      wp_next v1 H1; [ | eexists; split; reflexivity ].
      wp_next v2 H2; [ | eexists; split; reflexivity ].
      wp_next v3 H3; [ | eexists; split; reflexivity ].
      wp_next v4 H4; [ | eexists; split; reflexivity ].
      exfalso.
      destruct Hname as [<- | [<- | [<- | [<- | []]]]]; congruence. }
    destruct (py_truthy use); [ destruct (temperature (sensor_data w)) | ].
    + wp_step. apply Hrest.
    + wp_next t Hmax; [ | eexists; split; reflexivity ].
      wp_step. apply Hrest.
    + wp_next t Hmax; [ | eexists; split; reflexivity ].
      wp_step. apply Hrest.
Qed.

(** The provenance tag as the handler sets it. *)
Definition source_tag (use_sensor : pyval) (s : sensor) : string :=
  if py_truthy use_sensor
  then match temperature s with
       | Some _ => "sensor"
       | None => "open-meteo"
       end
  else "open-meteo".

Lemma risk_label_of (code : Z) (label : string) :
  RISK_LABELS code = Some label -> risk_label code = Ok label.
Proof. unfold risk_label. intros ->. reflexivity. Qed.

Lemma proba_at_of (probabilities : list float) (i : nat) (x : float) :
  nth_error probabilities i = Some x -> proba_at probabilities i = Ok x.
Proof. unfold proba_at. intros ->. reflexivity. Qed.

Lemma predict_with_sensor_exact
  (m : classifier) (req : request)
  (data latitude longitude use_sensor meteo_data daily : pyval)
  (t_max t_min w_speed w_gusts precip : pyval)
  (code : Z) (probabilities : list float) (label : string) (p0 p1 p2 : float)
  (w : world) :
  model = Some m ->
  method req = POST ->
  get_json req = Ok data ->
  py_get data "latitude" PNone = Ok latitude ->
  py_get data "longitude" PNone = Ok longitude ->
  py_get data "use_sensor" (PBool false) = Ok use_sensor ->
  py_truthy latitude = true ->
  py_truthy longitude = true ->
  open_meteo latitude longitude = Ok meteo_data ->
  py_getitem meteo_data "daily" = Ok daily ->
  chosen_max use_sensor (sensor_data w) daily t_max ->
  daily_first daily "temperature_2m_min" = Ok t_min ->
  daily_first daily "wind_speed_10m_max" = Ok w_speed ->
  daily_first daily "wind_gusts_10m_max" = Ok w_gusts ->
  daily_first daily "precipitation_sum" = Ok precip ->
  clf_predict m [t_max; t_min; w_speed; w_gusts; precip] = Ok code ->
  clf_predict_proba m [t_max; t_min; w_speed; w_gusts; precip] = Ok probabilities ->
  RISK_LABELS code = Some label ->
  nth_error probabilities 0 = Some p0 ->
  nth_error probabilities 1 = Some p1 ->
  nth_error probabilities 2 = Some p2 ->
  predict_with_sensor req w =
    (PredictedWithSensor
       {| risk := label;
          risk_code := code;
          confidence_of := {| low := p0; medium := p1; high := p2 |};
          recommendations := get_recommendations label |}
       {| features_used_of :=
            {| temperature_max := t_max; temperature_min := t_min;
               wind_speed_max := w_speed; wind_gusts_max := w_gusts;
               precipitation := precip |};
          data_source := source_tag use_sensor (sensor_data w);
          sensor_status := status (sensor_data w);
          sensor_note :=
            if py_truthy use_sensor then None
            else Some "Hardware functionality not yet implemented" |},
     {| sensor_data := sensor_data w;
        calls := calls w ++
                 [ Forecast latitude longitude;
                   Predict [t_max; t_min; w_speed; w_gusts; precip];
                   PredictProba [t_max; t_min; w_speed; w_gusts; precip] ] |}).
Proof.
  intros Hmodel Hm Hj Hlat Hlon Huse Tlat Tlon Hmeteo Hdaily Hchosen
    Hmin Hspeed Hgusts Hprecip Hcode Hprobs Hlabel H0 H1 H2.
  apply risk_label_of in Hlabel.
  apply proba_at_of in H0, H1, H2.
  apply answer_and_world.
  unfold predict_with_sensor. rewrite Hm, Hmodel.
  apply (wp_try_except_response _ (fun r w' => r = _ /\ w' = _)).
  wp_with Hj. wp_with Hlat. wp_with Hlon. wp_with Huse.
  rewrite Tlat, Tlon. cbn [negb orb]. unfold requests_get.
  wp_with Hmeteo. wp_with Hdaily. do 3 wp_step. cbn [sensor_data].
  unfold source_tag, model_predict, model_predict_proba, prediction_fields.
  destruct Hchosen as [(Ht & T & HT & ->) | ([Hf | Hn] & Hmax)];
    [ rewrite Ht, HT
    | rewrite Hf; wp_with Hmax
    | rewrite Hn; destruct (py_truthy use_sensor); wp_with Hmax ];
    cbv beta iota; wp_step; cbv beta iota; cbn [fst snd negb];
    wp_with Hmin; wp_with Hspeed; wp_with Hgusts; wp_with Hprecip;
    wp_with Hcode; wp_with Hprobs;
    wp_with Hlabel; wp_with H0; wp_with H1; wp_with H2;
    repeat wp_step; cbn [sensor_data calls];
    rewrite <- !app_assoc; split; reflexivity.
Qed.

(** When a coordinate prediction succeeds, and what it answers.  With
    truthy coordinates, a forecast that has ['daily'] and the four columns
    that are always read, a maximum temperature chosen as [chosen_max] says
    (with a stored reading and [use_sensor] set, the forecast need not have
    a ['temperature_2m_max'] column at all), and a classifier that answers a
    class index with a label and at least three probabilities, the answer is
    the full prediction: the label, the index, the first three
    probabilities, the label's recommendations, the features used, the
    provenance tag, the stored sensor status, and the note, which is absent
    exactly when [use_sensor] is truthy. *)
Theorem coordinate_prediction_succeeds
  (m : classifier) (req : request)
  (data latitude longitude use_sensor meteo_data daily : pyval)
  (t_max t_min w_speed w_gusts precip : pyval)
  (code : Z) (probabilities : list float) (label : string) (p0 p1 p2 : float)
  (w : world) :
  model = Some m ->
  method req = POST ->
  get_json req = Ok data ->
  py_get data "latitude" PNone = Ok latitude ->
  py_get data "longitude" PNone = Ok longitude ->
  py_get data "use_sensor" (PBool false) = Ok use_sensor ->
  py_truthy latitude = true ->
  py_truthy longitude = true ->
  open_meteo latitude longitude = Ok meteo_data ->
  py_getitem meteo_data "daily" = Ok daily ->
  chosen_max use_sensor (sensor_data w) daily t_max ->
  daily_first daily "temperature_2m_min" = Ok t_min ->
  daily_first daily "wind_speed_10m_max" = Ok w_speed ->
  daily_first daily "wind_gusts_10m_max" = Ok w_gusts ->
  daily_first daily "precipitation_sum" = Ok precip ->
  clf_predict m [t_max; t_min; w_speed; w_gusts; precip] = Ok code ->
  clf_predict_proba m [t_max; t_min; w_speed; w_gusts; precip] = Ok probabilities ->
  RISK_LABELS code = Some label ->
  nth_error probabilities 0 = Some p0 ->
  nth_error probabilities 1 = Some p1 ->
  nth_error probabilities 2 = Some p2 ->
  predict_with_sensor req w =
    (PredictedWithSensor
       {| risk := label;
          risk_code := code;
          confidence_of := {| low := p0; medium := p1; high := p2 |};
          recommendations := get_recommendations label |}
       {| features_used_of :=
            {| temperature_max := t_max; temperature_min := t_min;
               wind_speed_max := w_speed; wind_gusts_max := w_gusts;
               precipitation := precip |};
          data_source := source_tag use_sensor (sensor_data w);
          sensor_status := status (sensor_data w);
          sensor_note :=
            if py_truthy use_sensor then None
            else Some "Hardware functionality not yet implemented" |},
     {| sensor_data := sensor_data w;
        calls := calls w ++
                 [ Forecast latitude longitude;
                   Predict [t_max; t_min; w_speed; w_gusts; precip];
                   PredictProba [t_max; t_min; w_speed; w_gusts; precip] ] |}).
Proof.
  apply predict_with_sensor_exact.
Qed.

(** When a direct-feature prediction succeeds, and what it answers: with
    the five fields present and a classifier that answers a class index
    with a label and at least three probabilities, the answer carries the
    label, the index, the first three probabilities and the label's
    recommendations, and the classifier was called twice on the five
    values, whatever their types. *)
Theorem direct_prediction_succeeds
  (m : classifier) (req : request) (data : pyval)
  (t_max t_min w_speed w_gusts precip : pyval)
  (code : Z) (probabilities : list float) (label : string) (p0 p1 p2 : float)
  (w : world) :
  model = Some m ->
  method req = POST ->
  get_json req = Ok data ->
  py_getitem data "temperature_2m_max" = Ok t_max ->
  py_getitem data "temperature_2m_min" = Ok t_min ->
  py_getitem data "wind_speed_10m_max" = Ok w_speed ->
  py_getitem data "wind_gusts_10m_max" = Ok w_gusts ->
  py_getitem data "precipitation_sum" = Ok precip ->
  clf_predict m [t_max; t_min; w_speed; w_gusts; precip] = Ok code ->
  clf_predict_proba m [t_max; t_min; w_speed; w_gusts; precip] = Ok probabilities ->
  RISK_LABELS code = Some label ->
  nth_error probabilities 0 = Some p0 ->
  nth_error probabilities 1 = Some p1 ->
  nth_error probabilities 2 = Some p2 ->
  predict req w =
    (Predicted
       {| risk := label;
          risk_code := code;
          confidence_of := {| low := p0; medium := p1; high := p2 |};
          recommendations := get_recommendations label |},
     {| sensor_data := sensor_data w;
        calls := calls w ++
                 [ Predict [t_max; t_min; w_speed; w_gusts; precip];
                   PredictProba [t_max; t_min; w_speed; w_gusts; precip] ] |}).
Proof.
  intros Hmodel Hm Hj Hmax Hmin Hspeed Hgusts Hprecip Hcode Hprobs Hlabel H0 H1 H2.
  apply risk_label_of in Hlabel.
  apply proba_at_of in H0, H1, H2.
  apply answer_and_world.
  unfold predict. rewrite Hm, Hmodel.
  apply (wp_try_except_response _ (fun r w' => r = _ /\ w' = _)).
  wp_with Hj. wp_with Hmax. wp_with Hmin. wp_with Hspeed. wp_with Hgusts.
  wp_with Hprecip.
  unfold model_predict, model_predict_proba, prediction_fields.
  wp_with Hcode. wp_with Hprobs.
  wp_with Hlabel. wp_with H0. wp_with H1. wp_with H2.
  repeat wp_step. cbn [sensor_data calls].
  rewrite <- !app_assoc. split; reflexivity.
Qed.

(** The provenance tag and the note of a coordinate prediction follow the
    truth value of [use_sensor], whatever JSON value it is: the tag says
    ["sensor"] exactly when it is truthy and a temperature is stored, and
    the note is absent exactly when it is truthy.  So a request that asks
    for the sensor before any reading came gets ["open-meteo"] and no
    note. *)
Theorem source_and_note
  (req : request) (data use_sensor : pyval) (w w' : world)
  (p : prediction_body) (i : sensor_info) :
  get_json req = Ok data ->
  py_get data "use_sensor" (PBool false) = Ok use_sensor ->
  predict_with_sensor req w = (PredictedWithSensor p i, w') ->
  data_source i = source_tag use_sensor (sensor_data w) /\
  sensor_note i =
    (if py_truthy use_sensor then None
     else Some "Hardware functionality not yet implemented").
Proof.
  intros Hj Huse H.
  pose proof H as Hok. apply predict_with_sensor_ok in Hok.
  destruct Hok as (m & data' & lat & lon & use & meteo & daily & Hmodel & Hm & Hj'
                   & Hlat & Hlon & Huse' & Tlat & Tlon & Hmeteo & Hdaily & Hsrc
                   & Hmin & Hspeed & Hgusts & Hprecip & Hc & _ & _).
  rewrite Hj in Hj'. inversion Hj'; subst data'.
  rewrite Huse in Huse'. inversion Huse'; subst use.
  destruct Hc as (probs & Hcode & Hprobs & Hlabel & H0 & H1 & H2 & _).
  assert (Hchosen : chosen_max use_sensor (sensor_data w) daily
                      (temperature_max (features_used_of i))).
  { destruct Hsrc as [(Ht & T & HT & Hmax & _) | (Hcase & Hmax & _)].
    - left. split; [exact Ht | exists T; auto].
    - right. auto. }
  pose proof (predict_with_sensor_exact m req data lat lon use_sensor
                meteo daily _ _ _ _ _ _ probs _ _ _ _ w
                Hmodel Hm Hj Hlat Hlon Huse Tlat Tlon Hmeteo Hdaily Hchosen
                Hmin Hspeed Hgusts Hprecip Hcode Hprobs Hlabel H0 H1 H2) as Hexact.
  rewrite H in Hexact. inversion Hexact. split; reflexivity.
Qed.

(** ** What a prediction response can hold *)

Lemma RISK_LABELS_cases (code : Z) (label : string) :
  RISK_LABELS code = Some label ->
  code = 0 /\ label = "Low" \/
  code = 1 /\ label = "Medium" \/
  code = 2 /\ label = "High".
Proof.
  unfold RISK_LABELS.
  destruct code as [ | [ [ | | ] | [ | | ] | ] | ]; intro H; inversion H; auto.
Qed.

Lemma classified_well_formed (m : classifier) (features : list pyval)
  (p : prediction_body) :
  classified m features p ->
  0 <= risk_code p <= 2 /\
  In (risk p) ["Low"; "Medium"; "High"] /\
  List.length (recommendations p) = Z.to_nat (3 + risk_code p).
Proof.
  intros (probs & _ & _ & Hlabel & _ & _ & _ & Hrec).
  rewrite Hrec.
  destruct (RISK_LABELS_cases _ _ Hlabel) as [[-> ->] | [[-> ->] | [-> ->]]];
    cbn; repeat split; auto; lia.
Qed.

(** A prediction response of either handler is never partial or out of
    range: its [risk_code] is 0, 1 or 2, its [risk] is Low, Medium or High,
    and it carries [3 + risk_code] recommendations, so never an empty
    list. *)
Theorem prediction_well_formed :
  (forall req w w' p,
     predict req w = (Predicted p, w') ->
     0 <= risk_code p <= 2 /\
     In (risk p) ["Low"; "Medium"; "High"] /\
     List.length (recommendations p) = Z.to_nat (3 + risk_code p))
  /\
  (forall req w w' p i,
     predict_with_sensor req w = (PredictedWithSensor p i, w') ->
     0 <= risk_code p <= 2 /\
     In (risk p) ["Low"; "Medium"; "High"] /\
     List.length (recommendations p) = Z.to_nat (3 + risk_code p)).
Proof.
  split.
  - intros req w w' p H. apply predict_ok in H.
    destruct H as (m & data & f & _ & _ & _ & _ & _ & _ & _ & _ & Hc & _).
    apply (classified_well_formed m _ p Hc).
  - intros req w w' p i H. apply predict_with_sensor_ok in H.
    destruct H as (m & data & lat & lon & use & meteo & daily & H).
    destruct H as (_ & _ & _ & _ & _ & _ & _ & _ & _ & _ & _ & _ & _ & _ & _
                   & Hc & _).
    apply (classified_well_formed m _ p Hc).
Qed.

(** A classifier that answers outside its contract, with a class index
    that has no label or with fewer than three probabilities, makes the
    direct-feature request fail with 500 after both calls: no response with
    a missing label or confidence is sent. *)
Theorem classifier_out_of_contract
  (m : classifier) (req : request) (data : pyval)
  (t_max t_min w_speed w_gusts precip : pyval)
  (code : Z) (probabilities : list float) (w : world) :
  model = Some m ->
  method req = POST ->
  get_json req = Ok data ->
  py_getitem data "temperature_2m_max" = Ok t_max ->
  py_getitem data "temperature_2m_min" = Ok t_min ->
  py_getitem data "wind_speed_10m_max" = Ok w_speed ->
  py_getitem data "wind_gusts_10m_max" = Ok w_gusts ->
  py_getitem data "precipitation_sum" = Ok precip ->
  clf_predict m [t_max; t_min; w_speed; w_gusts; precip] = Ok code ->
  clf_predict_proba m [t_max; t_min; w_speed; w_gusts; precip] = Ok probabilities ->
  RISK_LABELS code = None \/ (List.length probabilities < 3)%nat ->
  exists message,
    predict req w =
      (Error 500 message,
       {| sensor_data := sensor_data w;
          calls := calls w ++
                   [ Predict [t_max; t_min; w_speed; w_gusts; precip];
                     PredictProba [t_max; t_min; w_speed; w_gusts; precip] ] |}).
Proof.
  intros Hmodel Hm Hj Hmax Hmin Hspeed Hgusts Hprecip Hcode Hprobs Hbad.
  cut (exists message,
         fst (predict req w) = Error 500 message /\
         snd (predict req w) =
           {| sensor_data := sensor_data w;
              calls := calls w ++
                       [ Predict [t_max; t_min; w_speed; w_gusts; precip];
                         PredictProba [t_max; t_min; w_speed; w_gusts; precip] ] |}).
  { intros (message & H). exists message. apply answer_and_world. exact H. }
  unfold predict. rewrite Hm, Hmodel.
  apply (wp_try_except_response _
           (fun r w' => exists message, r = Error 500 message /\ w' = _)).
  wp_with Hj. wp_with Hmax. wp_with Hmin. wp_with Hspeed. wp_with Hgusts.
  wp_with Hprecip.
  unfold model_predict, model_predict_proba, prediction_fields.
  wp_with Hcode. wp_with Hprobs.
  cbn [sensor_data calls]. rewrite <- !app_assoc. cbn [app].
  wp_next label Hlabel; [ | eexists; split; reflexivity ].
  wp_next p0 H0; [ | eexists; split; reflexivity ].
  wp_next p1 H1; [ | eexists; split; reflexivity ].
  wp_next p2 H2; [ | eexists; split; reflexivity ].
  exfalso.
  apply risk_label_ok in Hlabel. apply proba_at_ok in H2.
  destruct Hbad as [Hnone | Hshort].
  - congruence.
  - assert (Hnth : nth_error probabilities 2 <> None) by congruence.
    apply nth_error_Some in Hnth. lia.
Qed.

(** ** What a request costs, and what it answers *)

(** The calls added between [w] and [w'] are the first few of [full]. *)
Definition adds_prefix_of (full : list event) (w w' : world) : Prop :=
  exists l rest, calls w' = calls w ++ l /\ l ++ rest = full.

Definition coordinate_budget (w w' : world) : Prop :=
  exists latitude longitude features,
    adds_prefix_of [ Forecast latitude longitude; Predict features;
                     PredictProba features ] w w'.

Definition direct_budget (w w' : world) : Prop :=
  exists features,
    adds_prefix_of [ Predict features; PredictProba features ] w w'.

Lemma coordinate_budget_0 (w : world) : coordinate_budget w w.
Proof.
  exists PNone, PNone, [], [], [Forecast PNone PNone; Predict []; PredictProba []].
  split; [symmetry; apply app_nil_r | reflexivity].
Qed.

Lemma coordinate_budget_1 (w : world) (s : sensor) (a b : pyval) :
  coordinate_budget w {| sensor_data := s; calls := calls w ++ [Forecast a b] |}.
Proof.
  exists a, b, [], [Forecast a b], [Predict []; PredictProba []].
  split; reflexivity.
Qed.

Lemma coordinate_budget_2 (w : world) (s : sensor) (a b : pyval)
  (fs : list pyval) :
  coordinate_budget w
    {| sensor_data := s; calls := (calls w ++ [Forecast a b]) ++ [Predict fs] |}.
Proof.
  exists a, b, fs, [Forecast a b; Predict fs], [PredictProba fs].
  split; [cbn [calls]; rewrite <- app_assoc; reflexivity | reflexivity].
Qed.

Lemma coordinate_budget_3 (w : world) (s : sensor) (a b : pyval)
  (fs : list pyval) :
  coordinate_budget w
    {| sensor_data := s;
       calls := ((calls w ++ [Forecast a b]) ++ [Predict fs]) ++ [PredictProba fs] |}.
Proof.
  exists a, b, fs, [Forecast a b; Predict fs; PredictProba fs], [].
  split; [cbn [calls]; rewrite <- !app_assoc; reflexivity | reflexivity].
Qed.

Lemma direct_budget_0 (w : world) : direct_budget w w.
Proof.
  exists [], [], [Predict []; PredictProba []].
  split; [symmetry; apply app_nil_r | reflexivity].
Qed.

Lemma direct_budget_1 (w : world) (s : sensor) (fs : list pyval) :
  direct_budget w {| sensor_data := s; calls := calls w ++ [Predict fs] |}.
Proof. exists fs, [Predict fs], [PredictProba fs]. split; reflexivity. Qed.

Lemma direct_budget_2 (w : world) (s : sensor) (fs : list pyval) :
  direct_budget w
    {| sensor_data := s; calls := (calls w ++ [Predict fs]) ++ [PredictProba fs] |}.
Proof.
  exists fs, [Predict fs; PredictProba fs], [].
  split; [cbn [calls]; rewrite <- app_assoc; reflexivity | reflexivity].
Qed.

(** Run a handler body to each of its ends, and close each with [leaf]. *)
Ltac wp_run leaf :=
  repeat first
    [ wp_step
    | lazymatch goal with
      | |- match ?r with Ok _ => _ | Raise _ => _ end => destruct r
      | |- wp (if ?b then _ else _) _ _ => destruct b
      | |- wp (match ?x with Some _ => _ | None => _ end) _ _ => destruct x
      end ];
  leaf.

Ltac budget_leaf :=
  cbv beta iota; cbn [sensor_data calls];
  first [ apply coordinate_budget_0 | apply coordinate_budget_1
        | apply coordinate_budget_2 | apply coordinate_budget_3
        | apply direct_budget_0 | apply direct_budget_1
        | apply direct_budget_2 ].

(** What a request costs.  A coordinate request makes at most one forecast
    call, then at most one call to [predict] and one to [predict_proba], in
    that order and on one and the same vector: nothing is retried.  A
    direct-feature request makes at most the two classifier calls and never
    calls the forecast provider.  An ingest, a sensor read and a health
    check call nothing.  All this whatever the request and the answer. *)
Theorem call_budget (now : Z) (req : request) (w : world) :
  coordinate_budget w (snd (predict_with_sensor req w)) /\
  direct_budget w (snd (predict req w)) /\
  calls (snd (receive_sensor_data now req w)) = calls w /\
  calls (snd (get_sensor_data now w)) = calls w /\
  calls (snd (health_check w)) = calls w.
Proof.
  split; [ | split; [ | split; [ | split ] ] ].
  - unfold predict_with_sensor.
    destruct (method req); [ | apply coordinate_budget_0 ].
    destruct model as [m | ]; [ | apply coordinate_budget_0 ].
    apply wp_try_except.
    unfold requests_get, model_predict, model_predict_proba, prediction_fields.
    wp_run budget_leaf.
  - unfold predict.
    destruct (method req); [ | apply direct_budget_0 ].
    destruct model as [m | ]; [ | apply direct_budget_0 ].
    apply wp_try_except.
    unfold model_predict, model_predict_proba, prediction_fields.
    wp_run budget_leaf.
  - destruct (receive_sensor_data_cases now req w)
      as [(temp & T & _ & ->) | (-> & _)]; reflexivity.
  - apply get_sensor_data_refreshed.
  - reflexivity.
Qed.

Ltac status_leaf := cbv beta iota; cbn [status_code]; auto.

Lemma predict_status_post (req : request) (w : world) :
  method req = POST ->
  status_code (fst (predict req w)) = 200 \/
  status_code (fst (predict req w)) = 500.
Proof.
  intro Hm. unfold predict. rewrite Hm.
  destruct model as [m | ]; [ | right; reflexivity ].
  apply (wp_try_except_response _
           (fun r _ => status_code r = 200 \/ status_code r = 500)).
  unfold model_predict, model_predict_proba, prediction_fields.
  wp_run status_leaf.
Qed.

Lemma predict_with_sensor_status_post (req : request) (w : world) :
  method req = POST ->
  status_code (fst (predict_with_sensor req w)) = 200 \/
  status_code (fst (predict_with_sensor req w)) = 400 \/
  status_code (fst (predict_with_sensor req w)) = 500.
Proof.
  intro Hm. unfold predict_with_sensor. rewrite Hm.
  destruct model as [m | ]; [ | right; right; reflexivity ].
  apply (wp_try_except_response _
           (fun r _ => status_code r = 200 \/ status_code r = 400 \/
                       status_code r = 500)).
  unfold requests_get, model_predict, model_predict_proba, prediction_fields.
  wp_run status_leaf.
Qed.

Lemma receive_sensor_data_status_post (now : Z) (req : request) (w : world) :
  method req = POST ->
  status_code (fst (receive_sensor_data now req w)) = 200 \/
  status_code (fst (receive_sensor_data now req w)) = 400 \/
  status_code (fst (receive_sensor_data now req w)) = 500.
Proof.
  intro Hm. unfold receive_sensor_data. rewrite Hm.
  apply (wp_try_except_response _
           (fun r _ => status_code r = 200 \/ status_code r = 400 \/
                       status_code r = 500)).
  unfold set_temperature, set_timestamp, set_status, write_sensor.
  repeat first
    [ wp_step
    | lazymatch goal with
      | |- match ?r with Ok _ => _ | Raise _ => _ end => destruct r
      | |- wp (if ?b then _ else _) _ _ => destruct b
      | |- wp (fun _ => _) _ _ => unfold wp; cbn [fst snd]
      end ];
  status_leaf.
Qed.

(** Direct-feature mode never answers with a client error: whatever the
    request, the status is 200, 204 (preflight) or 500.  A malformed or
    incomplete body is reported as a server error. *)
Theorem direct_mode_never_client_error (req : request) (w : world) :
  status_code (fst (predict req w)) = 200 \/
  status_code (fst (predict req w)) = 204 \/
  status_code (fst (predict req w)) = 500.
Proof.
  destruct (method req) eqn:Hm.
  - destruct (predict_status_post req w Hm); auto.
  - right. left. unfold predict. rewrite Hm. reflexivity.
Qed.

(** The preflight answer, 204 with an empty body, is given exactly to
    OPTIONS requests, by each of the three POST handlers; it is given
    before the model is checked and before the body is read, and the world
    is left untouched. *)
Theorem preflight_exactly_for_options (now : Z) (req : request) (w : world) :
  (status_code (fst (receive_sensor_data now req w)) = 204 <-> method req = OPTIONS) /\
  (status_code (fst (predict_with_sensor req w)) = 204 <-> method req = OPTIONS) /\
  (status_code (fst (predict req w)) = 204 <-> method req = OPTIONS) /\
  (method req = OPTIONS ->
   receive_sensor_data now req w = (Preflight, w) /\
   predict_with_sensor req w = (Preflight, w) /\
   predict req w = (Preflight, w)).
Proof.
  destruct (method req) eqn:Hm.
  - pose proof (receive_sensor_data_status_post now req w Hm) as H1.
    pose proof (predict_with_sensor_status_post req w Hm) as H2.
    pose proof (predict_status_post req w Hm) as H3.
    repeat match goal with
           | |- _ /\ _ => split
           | |- _ <-> _ => split
           end;
      intro H; try discriminate H; exfalso; lia.
  - unfold receive_sensor_data, predict_with_sensor, predict. rewrite Hm.
    repeat split; reflexivity.
Qed.

(** A body whose answer does not depend on the world it runs in. *)
Definition oblivious {A} (c : M A) : Prop :=
  forall w1 w2, fst (c w1) = fst (c w2).

Lemma oblivious_ret {A} (a : A) : oblivious (ret a).
Proof. intros w1 w2. reflexivity. Qed.

Lemma oblivious_lift {A} (r : result A) : oblivious (lift r).
Proof. intros w1 w2. reflexivity. Qed.

Lemma oblivious_call (e : event) : oblivious (call e).
Proof. intros w1 w2. reflexivity. Qed.

Lemma oblivious_bind {A B} (c : M A) (k : A -> M B) :
  oblivious c -> (forall a, oblivious (k a)) -> oblivious (bind c k).
Proof.
  intros Hc Hk w1 w2. unfold bind. specialize (Hc w1 w2).
  destruct (c w1) as [[a1 | e1] w1'], (c w2) as [[a2 | e2] w2'];
    cbn [fst] in *; inversion Hc; subst; [apply Hk | reflexivity].
Qed.

(** Direct-feature mode never consults the sensor or the call log: its
    answer is the same in every world. *)
Theorem direct_mode_ignores_world (req : request) (w1 w2 : world) :
  fst (predict req w1) = fst (predict req w2).
Proof.
  unfold predict. destruct (method req); [ | reflexivity ].
  destruct model as [m | ]; [ | reflexivity ].
  assert (H : oblivious
    (data <- lift (get_json req) ;;
     temp_max <- lift (py_getitem data "temperature_2m_max") ;;
     temp_min <- lift (py_getitem data "temperature_2m_min") ;;
     wind_speed <- lift (py_getitem data "wind_speed_10m_max") ;;
     wind_gusts <- lift (py_getitem data "wind_gusts_10m_max") ;;
     precip <- lift (py_getitem data "precipitation_sum") ;;
     prediction <-
       model_predict m [temp_max; temp_min; wind_speed; wind_gusts; precip] ;;
     probabilities <-
       model_predict_proba m [temp_max; temp_min; wind_speed; wind_gusts; precip] ;;
     p <- prediction_fields prediction probabilities ;;
     ret (Predicted p))).
  { unfold model_predict, model_predict_proba, prediction_fields.
    repeat first
      [ apply oblivious_ret | apply oblivious_lift | apply oblivious_call
      | apply oblivious_bind; [ | intros ? ] ]. }
  unfold try_except. specialize (H w1 w2).
  match type of H with
  | fst (?c w1) = fst (?c w2) =>
      destruct (c w1) as [[r1 | e1] w1'], (c w2) as [[r2 | e2] w2']
  end; cbn [fst] in *; inversion H; reflexivity.
Qed.

(** ** An invariant of the stored reading *)

(** The temperature and the timestamp are both there or both absent, and a
    connected sensor has a reading. *)
Definition coherent (s : sensor) : Prop :=
  (temperature s = None <-> timestamp s = None) /\
  (status s = connected -> timestamp s <> None).

Lemma handle_coherent (o : operation) (w : world) :
  coherent (sensor_data w) -> coherent (sensor_data (snd (handle o w))).
Proof.
  intros [Hboth Hconn].
  destruct (is_ingest o) eqn:Ho.
  - destruct o as [ | now req | now | req | req ]; try discriminate Ho.
    cbn [handle].
    destruct (receive_sensor_data_cases now req w)
      as [(temp & T & _ & ->) | (-> & _)].
    + cbn. split; [split; discriminate | discriminate].
    + split; assumption.
  - unfold coherent.
    destruct (handle_frame o w Ho) as (-> & -> & Hst).
    split; [exact Hboth | ].
    intro Hc. apply Hconn.
    destruct Hst as [<- | (Hd & _)]; congruence.
Qed.

(** The handlers keep the stored reading coherent: from the state the
    module starts in, whatever requests are served, the temperature and the
    timestamp are both present or both absent, and a sensor marked connected
    has a reading. *)
Theorem reading_stays_coherent (os : list operation) :
  forall w,
    coherent (sensor_data w) -> coherent (sensor_data (serve os w)).
Proof.
  induction os as [ | o os IH ]; intros w Hw; [exact Hw | ].
  cbn [serve]. apply IH. apply handle_coherent. exact Hw.
Qed.

(** A sensor read never vouches for an old reading: when it reports
    [connected], a reading is stored and is at most 10 seconds old by the
    clock of that read. *)
Theorem connected_means_fresh (now : Z) (w : world) (s : sensor) :
  coherent (sensor_data w) ->
  fst (get_sensor_data now w) = SensorData s ->
  status s = connected ->
  exists T last_update,
    temperature s = Some T /\
    timestamp s = Some last_update /\
    now - last_update <= stale_after.
Proof.
  intros [Hboth Hconn] Hread Hc.
  destruct (get_sensor_data_refreshed now w) as (Hfst & _).
  rewrite Hfst in Hread. inversion Hread as [Hs]. clear Hread Hfst.
  unfold refreshed in *.
  destruct (sensor_data w) as [T ts st]. cbn [temperature timestamp status] in *.
  destruct ts as [ts | ].
  - destruct (stale_after <? now - ts) eqn:Hlt.
    + subst s. discriminate Hc.
    + subst s. cbn [temperature timestamp status] in *.
      destruct T as [T | ].
      * exists T, ts. repeat split. apply Z.ltb_ge. exact Hlt.
      * destruct Hboth as [Hboth _]. discriminate (Hboth eq_refl).
  - subst s. cbn [status] in Hc. exfalso. apply (Hconn Hc). reflexivity.
Qed.

End Service.

(* ================================================================== *)
(** * The properties on the sample deployment *)

(** A reading of 42 degrees ingested at instant 0, then a read after four
    seconds and a prediction: a read after ten seconds still finds the
    sensor connected, a read one microsecond later finds it disconnected. *)
Lemma C1_witness :
  let ingested := snd (receive_sensor_data text_refused 0 ingest_42 fresh_world) in
  let later :=
    serve text_refused (Some sample_model) sample_forecast
      [GetSensorData 4000000; PredictDirect five_features] ingested in
  (exists s,
     fst (get_sensor_data 10000000 later) = SensorData s /\
     temperature s = Some 42%float /\ status s = connected) /\
  (exists s,
     fst (get_sensor_data 10000001 later) = SensorData s /\
     temperature s = Some 42%float /\ status s = disconnected).
Proof.
  intros ingested later. subst ingested later.
  assert (Hno : no_ingest [GetSensorData 4000000; PredictDirect five_features])
    by (repeat constructor).
  split.
  - destruct (C1_sensor_liveness text_refused (Some sample_model) sample_forecast
                0 10000000 ingest_42 _ (PFloat 42) 42%float _ fresh_world
                eq_refl eq_refl eq_refl eq_refl Hno)
      as (s & Hr & HT & Hc & _).
    exists s. split; [exact Hr | ]. split; [exact HT | ].
    apply Hc.
    + unfold stale_after. lia.
    + repeat constructor. lia.
  - destruct (C1_sensor_liveness text_refused (Some sample_model) sample_forecast
                0 10000001 ingest_42 _ (PFloat 42) 42%float _ fresh_world
                eq_refl eq_refl eq_refl eq_refl Hno)
      as (s & Hr & HT & _ & Hd).
    exists s. split; [exact Hr | ]. split; [exact HT | ].
    apply Hd. unfold stale_after. lia.
Defined.

(** An empty JSON object is refused with 400 and changes nothing; 42 degrees
    sent at instant 7 replace the old reading of [stale_world]. *)
Lemma C6_witness :
  receive_sensor_data text_refused 7 (post []) stale_world
    = (Error 400 "No temperature data", stale_world) /\
  fst (receive_sensor_data text_refused 7 ingest_42 stale_world)
    = Received (PFloat 42) 7 /\
  sensor_data (snd (receive_sensor_data text_refused 7 ingest_42 stale_world))
    = {| temperature := Some 42%float; timestamp := Some 7; status := connected |}.
Proof.
  split.
  - apply (C6_ingest_validation text_refused 7 (post []) [] stale_world
             eq_refl eq_refl).
    reflexivity.
  - apply (C6_ingest_validation text_refused 7 ingest_42 _ stale_world
             eq_refl eq_refl); reflexivity.
Defined.

(** A read eleven seconds after an ingest takes the status from connected
    to disconnected and keeps the reading; from [stale_world], the ingest is
    what makes the sensor connected again. *)
Lemma C10_witness :
  let ingested := snd (receive_sensor_data text_refused 0 ingest_42 fresh_world) in
  let after := sensor_data (snd (get_sensor_data 11000000 ingested)) in
  (temperature after = Some 42%float /\ timestamp after = Some 0 /\
   status (sensor_data ingested) = connected /\ status after = disconnected) /\
  exists t req temp,
    ReceiveSensorData 7 ingest_42 = ReceiveSensorData t req /\
    fst (handle text_refused (Some sample_model) sample_forecast
           (ReceiveSensorData 7 ingest_42) stale_world) = Received temp t.
Proof.
  intros ingested after. subst ingested after.
  split.
  - destruct (C10_read_frame text_refused (Some sample_model) sample_forecast
                11000000
                (snd (receive_sensor_data text_refused 0 ingest_42 fresh_world)))
      as (HT & Ht & Hchange & _).
    split; [rewrite HT; reflexivity | ]. split; [rewrite Ht; reflexivity | ].
    destruct Hchange as (Hc & Hd & _); [ | split; assumption ].
    vm_compute. discriminate.
  - destruct (C10_read_frame text_refused (Some sample_model) sample_forecast
                0 stale_world) as (_ & _ & _ & _ & Hsole).
    apply Hsole; reflexivity.
Defined.

(** The stale 20 degrees of [stale_world] are used as the maximum
    temperature when the request asks for the sensor. *)
Lemma C2_witness :
  exists p i w',
    predict_with_sensor (Some sample_model) sample_forecast
      coordinates_with_sensor stale_world = (PredictedWithSensor p i, w') /\
    sensor_status i = disconnected /\
    temperature_max (features_used_of i) = PFloat 20 /\
    data_source i = "sensor".
Proof.
  destruct (predict_with_sensor (Some sample_model) sample_forecast
              coordinates_with_sensor stale_world)
    as [[ | c msg | t r | s | p | p i | b c | e ] w'] eqn:E;
    try (vm_compute in E; discriminate E).
  exists p, i, w'. split; [reflexivity | ].
  split; [vm_compute in E; inversion E; reflexivity | ].
  destruct (C2_sensor_substitution (Some sample_model) sample_forecast
              coordinates_with_sensor _ 20%float stale_world
              eq_refl eq_refl eq_refl) as (_ & Hresponse).
  destruct (Hresponse p i w' E) as (Hmax & Hds & _).
  split; assumption.
Defined.

(** Without [use_sensor] the forecast's 35 degrees are used, even though
    [stale_world] holds a reading; and when only a read and a prediction
    came before, so that no ingest did, asking for the sensor changes
    nothing. *)
Lemma C3_witness :
  (exists p i w',
     predict_with_sensor (Some sample_model) sample_forecast
       coordinates_without_sensor stale_world = (PredictedWithSensor p i, w') /\
     data_source i = "open-meteo" /\
     temperature_max (features_used_of i) = PFloat 35) /\
  (exists p i w',
     predict_with_sensor (Some sample_model) sample_forecast
       coordinates_with_sensor
       (serve text_refused (Some sample_model) sample_forecast
          [GetSensorData 3; PredictDirect five_features] fresh_world)
       = (PredictedWithSensor p i, w') /\
     data_source i = "open-meteo" /\
     temperature_max (features_used_of i) = PFloat 35).
Proof.
  split.
  - destruct (predict_with_sensor (Some sample_model) sample_forecast
                coordinates_without_sensor stale_world)
      as [[ | c msg | t r | s | p | p i | b c | e ] w'] eqn:E;
      try (vm_compute in E; discriminate E).
    exists p, i, w'. split; [reflexivity | ].
    destruct (C3_forecast_fallback (Some sample_model) sample_forecast
                coordinates_without_sensor _ stale_world
                eq_refl (or_introl eq_refl)) as (_ & Hresponse).
    destruct (Hresponse p i w' E) as (Hds & _).
    split; [exact Hds | ].
    vm_compute in E. inversion E. reflexivity.
  - assert (Hnone :
      temperature
        (sensor_data
           (serve text_refused (Some sample_model) sample_forecast
              [GetSensorData 3; PredictDirect five_features] fresh_world)) = None).
    { apply no_ingest_no_temperature; [repeat constructor | reflexivity]. }
    destruct (predict_with_sensor (Some sample_model) sample_forecast
                coordinates_with_sensor
                (serve text_refused (Some sample_model) sample_forecast
                   [GetSensorData 3; PredictDirect five_features] fresh_world))
      as [[ | c msg | t r | s | p | p i | b c | e ] w'] eqn:E;
      try (vm_compute in E; discriminate E).
    exists p, i, w'. split; [reflexivity | ].
    destruct (C3_forecast_fallback (Some sample_model) sample_forecast
                coordinates_with_sensor _ _
                eq_refl (or_intror (or_intror Hnone))) as (_ & Hresponse).
    destruct (Hresponse p i w' E) as (Hds & _).
    split; [exact Hds | ].
    vm_compute in E. inversion E. reflexivity.
Defined.

(** The response says ["open-meteo"], not ["forecast-provider"]. *)
Lemma C3_counterexample :
  exists p i w',
    lookup "use_sensor" [ ("latitude", PFloat 18.5); ("longitude", PFloat 73.75);
                          ("use_sensor", PBool false) ] = Some (PBool false) /\
    predict_with_sensor (Some sample_model) sample_forecast
      coordinates_without_sensor fresh_world = (PredictedWithSensor p i, w') /\
    temperature_max (features_used_of i) = PFloat 35 /\
    data_source i = "open-meteo" /\
    data_source i <> "forecast-provider".
Proof.
  do 3 eexists. split; [reflexivity | ].
  split; [vm_compute; reflexivity | ].
  cbn. split; [reflexivity | ]. split; [reflexivity | discriminate].
Qed.

(** Section 8's direct request reaches the classifier as [35, 24, 10, 15, 0];
    the coordinate request with the sensor's 20 degrees as
    [20, 24, 10, 15, 0]. *)
Lemma C4_witness :
  (exists p w',
     predict (Some sample_model) five_features fresh_world = (Predicted p, w') /\
     calls w' =
       [ Predict [PInt 35; PInt 24; PInt 10; PInt 15; PInt 0];
         PredictProba [PInt 35; PInt 24; PInt 10; PInt 15; PInt 0] ]) /\
  (exists p i w',
     predict_with_sensor (Some sample_model) sample_forecast
       coordinates_with_sensor stale_world = (PredictedWithSensor p i, w') /\
     calls w' =
       [ Forecast (PFloat 18.5) (PFloat 73.75);
         Predict [PFloat 20; PFloat 24; PFloat 10; PFloat 15; PFloat 0];
         PredictProba [PFloat 20; PFloat 24; PFloat 10; PFloat 15; PFloat 0] ]).
Proof.
  destruct (C4_feature_order (Some sample_model) sample_forecast) as [Hdirect Hcoord].
  split.
  - destruct (predict (Some sample_model) five_features fresh_world)
      as [[ | c msg | t r | s | p | p i | b c | e ] w'] eqn:E;
      try (vm_compute in E; discriminate E).
    exists p, w'. split; [reflexivity | ].
    destruct (Hdirect five_features fresh_world w' p E)
      as (data & v1 & v2 & v3 & v4 & v5 & Hj & H1 & H2 & H3 & H4 & H5 & Hcalls).
    inversion Hj; subst data.
    inversion H1; inversion H2; inversion H3; inversion H4; inversion H5; subst.
    exact Hcalls.
  - destruct (predict_with_sensor (Some sample_model) sample_forecast
                coordinates_with_sensor stale_world)
      as [[ | c msg | t r | s | p | p i | b c | e ] w'] eqn:E;
      try (vm_compute in E; discriminate E).
    exists p, i, w'. split; [reflexivity | ].
    destruct (Hcoord coordinates_with_sensor stale_world w' p i E)
      as (lat & lon & meteo & daily & v1 & v2 & v3 & v4 & v5 & _ & _ & Hf
          & _ & _ & _ & _ & _ & Hcalls).
    vm_compute in E. inversion E; subst. inversion Hf; subst.
    reflexivity.
Defined.

(** The sample classifier answers class 2 with probabilities
    [0.125, 0.25, 0.625]: the response says High, code 2, those three
    confidences and the five High recommendations. *)
Lemma C9_witness :
  exists p w',
    predict (Some sample_model) five_features fresh_world = (Predicted p, w') /\
    risk_code p = 2 /\
    risk p = "High" /\
    confidence_of p =
      {| low := 0.125%float; medium := 0.25%float; high := 0.625%float |} /\
    recommendations p = get_recommendations "High".
Proof.
  destruct (C9_response_consistency (Some sample_model) sample_forecast)
    as [Hdirect _].
  destruct (predict (Some sample_model) five_features fresh_world)
    as [[ | c msg | t r | s | p | p i | b c | e ] w'] eqn:E;
    try (vm_compute in E; discriminate E).
  exists p, w'. split; [reflexivity | ].
  destruct (Hdirect five_features fresh_world w' p E)
    as (m & fs & probs & Hm & _ & Hcode & Hprobs & Hlabel & H0 & H1 & H2 & Hrec).
  inversion Hm; subst m. cbn [sample_model clf_predict clf_predict_proba] in *.
  inversion Hcode as [Hc]. inversion Hprobs; subst probs.
  rewrite <- Hc in Hlabel. inversion Hlabel as [Hl].
  cbn in H0, H1, H2. inversion H0. inversion H1. inversion H2.
  rewrite Hrec, <- Hl.
  destruct p as [r c [l md h] recs]. cbn in *. subst.
  repeat split; reflexivity.
Defined.

(** With no model, both handlers answer 500 and call nothing. *)
Lemma C7_witness :
  predict None coordinates_with_sensor fresh_world
    = (Error 500 "Model not loaded", fresh_world) /\
  predict_with_sensor None sample_forecast coordinates_with_sensor fresh_world
    = (Error 500 "Model not loaded", fresh_world).
Proof.
  apply (C7_model_unavailable None sample_forecast coordinates_with_sensor
           fresh_world eq_refl eq_refl).
Defined.

(** A request with the first field only is refused with the name of the
    second; the full request reaches the classifier unchanged. *)
Lemma C5_witness :
  (error_message (fst (predict (Some sample_model) one_feature fresh_world))
     = Some "'temperature_2m_min'" /\
   snd (predict (Some sample_model) one_feature fresh_world) = fresh_world) /\
  exists rest,
    calls (snd (predict (Some sample_model) five_features fresh_world)) =
      Predict [PInt 35; PInt 24; PInt 10; PInt 15; PInt 0] :: rest.
Proof.
  split.
  - destruct (C5_direct_mode_fields (Some sample_model) sample_model one_feature
                _ fresh_world eq_refl eq_refl eq_refl) as [Hmissing _].
    apply (Hmissing "temperature_2m_min"
             ["wind_speed_10m_max"; "wind_gusts_10m_max"; "precipitation_sum"]).
    reflexivity.
  - destruct (C5_direct_mode_fields (Some sample_model) sample_model five_features
                _ fresh_world eq_refl eq_refl eq_refl) as [_ Hall].
    destruct (Hall eq_refl)
      as (v1 & v2 & v3 & v4 & v5 & rest & H1 & H2 & H3 & H4 & H5 & Hcalls).
    inversion H1; inversion H2; inversion H3; inversion H4; inversion H5; subst.
    exists rest. exact Hcalls.
Defined.

(** The request with the first field only misses four fields; the answer
    is the server error 500, not a client error, and its message names one
    field: ["precipitation_sum"], for one, does not occur in it. *)
Lemma C5_counterexample :
  missing_fields [ ("temperature_2m_max", PInt 35) ]
    = [ "temperature_2m_min"; "wind_speed_10m_max"; "wind_gusts_10m_max";
        "precipitation_sum" ] /\
  predict (Some sample_model) one_feature fresh_world
    = (Error 500 "'temperature_2m_min'", fresh_world) /\
  status_code (fst (predict (Some sample_model) one_feature fresh_world)) = 500 /\
  occurs "precipitation_sum" "'temperature_2m_min'" = false.
Proof. repeat split; reflexivity. Qed.

(** A label outside the table gets no recommendation. *)
Lemma C8_witness : get_recommendations "Extreme" = [].
Proof.
  destruct C8_recommendations as (_ & _ & _ & _ & _ & _ & Hother & _).
  apply Hother; discriminate.
Defined.

(* ================================================================== *)
(** * Further properties on the sample deployment *)

(** [{"temperature": null}] *)
Lemma ingest_null_temperature_witness :
  receive_sensor_data text_refused 7 (post [("temperature", PNone)]) stale_world
    = (Error 400 "No temperature data", stale_world).
Proof.
  apply (ingest_null_temperature text_refused 7
           (post [("temperature", PNone)]) [("temperature", PNone)]
           stale_world eq_refl eq_refl eq_refl).
Defined.

(** [{"temperature": []}] *)
Lemma ingest_unconvertible_temperature_witness :
  receive_sensor_data text_refused 7 (post [("temperature", PList [])]) stale_world
    = (Error 500 "float() argument must be a string or a real number, not 'list'",
       stale_world).
Proof.
  apply (ingest_unconvertible_temperature text_refused 7
           (post [("temperature", PList [])])
           [("temperature", PList [])] (PList []) _ stale_world
           eq_refl eq_refl eq_refl eq_refl).
  discriminate.
Defined.

(** The body [[21.5]] *)
Lemma ingest_body_not_an_object_witness :
  receive_sensor_data text_refused 7
    {| method := POST; get_json := Ok (PList [PFloat 21.5]) |} stale_world
    = (Error 500 "'list' object has no attribute 'get'", stale_world).
Proof.
  apply (ingest_body_not_an_object text_refused 7
           {| method := POST; get_json := Ok (PList [PFloat 21.5]) |}
           (PList [PFloat 21.5]) stale_world eq_refl eq_refl).
  discriminate.
Defined.

(** A read after four seconds does not change what a read after ten
    seconds answers. *)
Lemma reads_compose_witness :
  let ingested := snd (receive_sensor_data text_refused 0 ingest_42 fresh_world) in
  fst (get_sensor_data 10000000 (snd (get_sensor_data 4000000 ingested)))
    = fst (get_sensor_data 10000000 ingested).
Proof.
  intro ingested.
  apply (reads_compose 4000000 10000000 ingested). lia.
Defined.

(** Ingest at 0, a read after eleven seconds, then, the clock set back, a
    read at five seconds: the sensor is still disconnected. *)
Lemma disconnected_until_ingest_witness :
  let ingested := snd (receive_sensor_data text_refused 0 ingest_42 fresh_world) in
  let stale := snd (get_sensor_data 11000000 ingested) in
  status (sensor_data
            (serve text_refused (Some sample_model) sample_forecast
               [GetSensorData 5000000; HealthCheck] stale)) = disconnected.
Proof.
  intros ingested stale.
  apply (disconnected_until_ingest text_refused (Some sample_model) sample_forecast
           [GetSensorData 5000000; HealthCheck] stale).
  - repeat constructor.
  - reflexivity.
Defined.

(** A health check and two predictions leave the reading of [stale_world]
    as it is. *)
Lemma sensor_written_by_ingest_and_read_witness :
  sensor_data
    (serve text_refused (Some sample_model) sample_forecast
       [HealthCheck; PredictDirect five_features;
        PredictWithSensor coordinates_with_sensor] stale_world)
    = sensor_data stale_world.
Proof.
  apply (sensor_written_by_ingest_and_read text_refused (Some sample_model)
           sample_forecast); repeat constructor.
Defined.

(** After an ingest and a prediction, and no sensor read, the health check
    says connected: no clock is consulted. *)
Lemma status_reported_as_stored_witness :
  let ingested := snd (receive_sensor_data text_refused 0 ingest_42 fresh_world) in
  fst (health_check (Some sample_model)
         (serve text_refused (Some sample_model) sample_forecast
            [PredictDirect five_features] ingested))
    = Health true connected.
Proof.
  intro ingested.
  destruct (status_reported_as_stored text_refused (Some sample_model)
              sample_forecast [PredictDirect five_features] ingested)
    as [Hhealth _]; [repeat constructor | repeat constructor | ].
  exact Hhealth.
Defined.

(** A read and a prediction on the fresh world, then a read at any time. *)
Lemma sensor_empty_before_ingest_witness :
  fst (get_sensor_data 99000000
         (serve text_refused (Some sample_model) sample_forecast
            [GetSensorData 3; PredictDirect five_features] fresh_world))
    = SensorData latest_sensor_data.
Proof.
  apply (sensor_empty_before_ingest text_refused (Some sample_model)
           sample_forecast); [repeat constructor | reflexivity].
Defined.

(** A point on the equator: [{"latitude": 0, "longitude": 73.75}]. *)
Definition equator : request :=
  post [ ("latitude", PInt 0); ("longitude", PFloat 73.75) ].

(** A forecast day without one column. *)
Definition day_without (column : string) : pyval :=
  PDict (filter (fun kv => negb (String.eqb (fst kv) column))
           [ ("temperature_2m_max", PList [PFloat 35]);
             ("temperature_2m_min", PList [PFloat 24]);
             ("wind_speed_10m_max", PList [PFloat 10]);
             ("wind_gusts_10m_max", PList [PFloat 15]);
             ("precipitation_sum", PList [PFloat 0]) ]).

Definition forecast_without (column : string) (latitude longitude : pyval)
  : result pyval :=
  Ok (PDict [ ("daily", day_without column) ]).

(** A classifier that answers a class it has no label for. *)
Definition wild_model : classifier :=
  {| clf_predict := fun _ => Ok 7;
     clf_predict_proba := fun _ => Ok [0.125%float; 0.25%float; 0.625%float] |}.

(** Latitude 0 is refused. *)
Lemma coordinates_required_witness :
  predict_with_sensor (Some sample_model) sample_forecast equator fresh_world
    = (Error 400 "Latitude and longitude required", fresh_world).
Proof.
  apply (coordinates_required (Some sample_model) sample_forecast sample_model
           equator [ ("latitude", PInt 0); ("longitude", PFloat 73.75) ]
           fresh_world eq_refl eq_refl eq_refl).
  left. reflexivity.
Defined.

(** A forecast without the minimum temperature: 500, one forecast call, no
    classifier call, though the sensor could have given the maximum. *)
Lemma forecast_failure_witness :
  exists message,
    predict_with_sensor (Some sample_model)
      (forecast_without "temperature_2m_min") coordinates_with_sensor stale_world
    = (Error 500 message,
       {| sensor_data := sensor_data stale_world;
          calls := [Forecast (PFloat 18.5) (PFloat 73.75)] |}).
Proof.
  apply (forecast_failure (Some sample_model)
           (forecast_without "temperature_2m_min") sample_model
           coordinates_with_sensor
           (PDict [ ("latitude", PFloat 18.5); ("longitude", PFloat 73.75);
                    ("use_sensor", PBool true) ])
           (PFloat 18.5) (PFloat 73.75) stale_world
           eq_refl eq_refl eq_refl eq_refl eq_refl eq_refl eq_refl).
  right. right.
  exists (PDict [ ("daily", day_without "temperature_2m_min") ]),
    (day_without "temperature_2m_min"), "temperature_2m_min",
    (mkExn KeyError "'temperature_2m_min'").
  repeat split; try reflexivity. left. reflexivity.
Defined.

(** With the stale 20 degrees of [stale_world] and [use_sensor] set, a
    forecast without the maximum temperature is enough. *)
Lemma coordinate_prediction_succeeds_witness :
  predict_with_sensor (Some sample_model)
    (forecast_without "temperature_2m_max") coordinates_with_sensor stale_world
  = (PredictedWithSensor
       {| risk := "High";
          risk_code := 2;
          confidence_of :=
            {| low := 0.125%float; medium := 0.25%float; high := 0.625%float |};
          recommendations := get_recommendations "High" |}
       {| features_used_of :=
            {| temperature_max := PFloat 20; temperature_min := PFloat 24;
               wind_speed_max := PFloat 10; wind_gusts_max := PFloat 15;
               precipitation := PFloat 0 |};
          data_source := "sensor";
          sensor_status := disconnected;
          sensor_note := None |},
     {| sensor_data := sensor_data stale_world;
        calls :=
          [ Forecast (PFloat 18.5) (PFloat 73.75);
            Predict [PFloat 20; PFloat 24; PFloat 10; PFloat 15; PFloat 0];
            PredictProba [PFloat 20; PFloat 24; PFloat 10; PFloat 15; PFloat 0] ] |}).
Proof.
  apply (coordinate_prediction_succeeds (Some sample_model)
           (forecast_without "temperature_2m_max") sample_model
           coordinates_with_sensor
           (PDict [ ("latitude", PFloat 18.5); ("longitude", PFloat 73.75);
                    ("use_sensor", PBool true) ])
           (PFloat 18.5) (PFloat 73.75) (PBool true)
           (PDict [ ("daily", day_without "temperature_2m_max") ])
           (day_without "temperature_2m_max")
           (PFloat 20) (PFloat 24) (PFloat 10) (PFloat 15) (PFloat 0)
           2 [0.125%float; 0.25%float; 0.625%float] "High"
           0.125%float 0.25%float 0.625%float stale_world);
    try reflexivity.
  left. split; [reflexivity | ]. exists 20%float. split; reflexivity.
Defined.

(** Section 8's direct request. *)
Lemma direct_prediction_succeeds_witness :
  predict (Some sample_model) five_features fresh_world
  = (Predicted
       {| risk := "High";
          risk_code := 2;
          confidence_of :=
            {| low := 0.125%float; medium := 0.25%float; high := 0.625%float |};
          recommendations := get_recommendations "High" |},
     {| sensor_data := sensor_data fresh_world;
        calls :=
          [ Predict [PInt 35; PInt 24; PInt 10; PInt 15; PInt 0];
            PredictProba [PInt 35; PInt 24; PInt 10; PInt 15; PInt 0] ] |}).
Proof.
  apply (direct_prediction_succeeds (Some sample_model) sample_model
           five_features
           (PDict [ ("temperature_2m_max", PInt 35); ("temperature_2m_min", PInt 24);
                    ("wind_speed_10m_max", PInt 10); ("wind_gusts_10m_max", PInt 15);
                    ("precipitation_sum", PInt 0) ])
           (PInt 35) (PInt 24) (PInt 10) (PInt 15) (PInt 0)
           2 [0.125%float; 0.25%float; 0.625%float] "High"
           0.125%float 0.25%float 0.625%float fresh_world);
    reflexivity.
Defined.

(** Asking for the sensor before any reading came: the forecast is used,
    and no note is given. *)
Lemma source_and_note_witness :
  exists p i w',
    predict_with_sensor (Some sample_model) sample_forecast
      coordinates_with_sensor fresh_world = (PredictedWithSensor p i, w') /\
    data_source i = "open-meteo" /\
    sensor_note i = None.
Proof.
  destruct (predict_with_sensor (Some sample_model) sample_forecast
              coordinates_with_sensor fresh_world)
    as [[ | c msg | t r | s | p | p i | b c | e ] w'] eqn:E;
    try (vm_compute in E; discriminate E).
  exists p, i, w'. split; [reflexivity | ].
  apply (source_and_note (Some sample_model) sample_forecast
           coordinates_with_sensor
           (PDict [ ("latitude", PFloat 18.5); ("longitude", PFloat 73.75);
                    ("use_sensor", PBool true) ])
           (PBool true) fresh_world w' p i
           eq_refl eq_refl E).
Defined.

(** The sample prediction carries the five High recommendations. *)
Lemma prediction_well_formed_witness :
  exists p w',
    predict (Some sample_model) five_features fresh_world = (Predicted p, w') /\
    0 <= risk_code p <= 2 /\
    List.length (recommendations p) = Z.to_nat (3 + risk_code p).
Proof.
  destruct (predict (Some sample_model) five_features fresh_world)
    as [[ | c msg | t r | s | p | p i | b c | e ] w'] eqn:E;
    try (vm_compute in E; discriminate E).
  exists p, w'. split; [reflexivity | ].
  destruct (prediction_well_formed (Some sample_model) sample_forecast)
    as [Hdirect _].
  destruct (Hdirect five_features fresh_world w' p E) as (Hcode & _ & Hlen).
  split; assumption.
Defined.

(** A classifier that answers class 7. *)
Lemma classifier_out_of_contract_witness :
  exists message,
    predict (Some wild_model) five_features fresh_world
    = (Error 500 message,
       {| sensor_data := sensor_data fresh_world;
          calls :=
            [ Predict [PInt 35; PInt 24; PInt 10; PInt 15; PInt 0];
              PredictProba [PInt 35; PInt 24; PInt 10; PInt 15; PInt 0] ] |}).
Proof.
  apply (classifier_out_of_contract (Some wild_model) wild_model
           five_features
           (PDict [ ("temperature_2m_max", PInt 35); ("temperature_2m_min", PInt 24);
                    ("wind_speed_10m_max", PInt 10); ("wind_gusts_10m_max", PInt 15);
                    ("precipitation_sum", PInt 0) ])
           (PInt 35) (PInt 24) (PInt 10) (PInt 15) (PInt 0)
           7 [0.125%float; 0.25%float; 0.625%float] fresh_world);
    try reflexivity.
  left. reflexivity.
Defined.

(** After an ingest, two reads and a refused ingest, the reading is
    coherent. *)
Lemma reading_stays_coherent_witness :
  coherent
    (sensor_data
       (serve text_refused (Some sample_model) sample_forecast
          [ ReceiveSensorData 0 ingest_42; GetSensorData 11000000;
            ReceiveSensorData 12000000 (post []); GetSensorData 5 ]
          fresh_world)).
Proof.
  apply (reading_stays_coherent text_refused (Some sample_model) sample_forecast).
  split; [split; reflexivity | discriminate].
Defined.

(** The read ten seconds after the ingest says connected, and the reading
    is ten seconds old. *)
Lemma connected_means_fresh_witness :
  let ingested := snd (receive_sensor_data text_refused 0 ingest_42 fresh_world) in
  exists T last_update,
    temperature (sensor_data ingested) = Some T /\
    timestamp (sensor_data ingested) = Some last_update /\
    10000000 - last_update <= stale_after.
Proof.
  intro ingested.
  apply (connected_means_fresh 10000000 ingested (sensor_data ingested)).
  - split; [split; discriminate | discriminate].
  - reflexivity.
  - reflexivity.
Defined.
